(** * AI Memory System: the memory tools of the [MyMCP] agent

    A shallow embedding of the tool handlers of the worker ([addMemory],
    [searchMemories], [createMemoryRelationship], [switchProject],
    [getMemoryStats]) over an explicit model of the Durable Object's SQLite
    tables, of the way [sql.exec] takes its bindings, and of the Vectorize
    index, followed by the properties of the hybrid store that the
    specification states about them. *)

From Stdlib Require Import Ascii QArith Qround Lqa.
From stdpp Require Import base option list gmap strings sorting.

Open Scope string_scope.

(** ** JavaScript values *)

(** JSON-serialisable values.  A JavaScript object used as a mapping is a
    finite map from property names to values. *)
#[warnings="-register-all"]
Inductive json : Type :=
  | JNull
  | JBool (b : bool)
  | JNum (q : Q)
  | JStr (s : string)
  | JArr (l : list json)
  | JObj (o : gmap string json).

#[global] Instance Qeq_decision (p q : Q) : Decision (p == q) := Qeq_dec p q.

(** The result of evaluating an expression that may throw: [Throw msg] is an
    exception whose [error.message] is [msg]. *)
Inductive outcome (A : Type) : Type :=
  | Ok (a : A)
  | Throw (message : string).
Arguments Ok {A} a.
Arguments Throw {A} message.

#[global] Instance outcome_ret : MRet outcome := λ A a, Ok a.
#[global] Instance outcome_bind : MBind outcome := λ A B k o,
  match o with Ok a => k a | Throw msg => Throw msg end.
#[global] Instance outcome_fmap : FMap outcome := λ A B f o,
  match o with Ok a => Ok (f a) | Throw msg => Throw msg end.


(** [JSON.stringify] and [JSON.parse] are built-ins of the platform. *)
Class JsonCodec : Type := {
  JSON_stringify : json → string;
  JSON_parse : string → outcome json;
}.

(** Lengths and prefixes of text.  JavaScript counts a string in UTF-16
    code units, SQLite counts it in characters; neither is tied here to
    the representation of [string]. *)
Class TextOps : Type := {
  (** [s.length] *)
  String_length : string → nat;
  (** [s.substring(0, n)] *)
  String_substring : nat → string → string;
  (** SQL [LENGTH(s)] *)
  SQL_LENGTH : string → nat;
}.

(** [a || b] on strings: the empty string is falsy. *)
Definition or_string (a b : string) : string :=
  if decide (a = "") then b else a.

(** Truthiness of an optional string argument, as in [if (project)]. *)
Definition truthy (a : option string) : option string :=
  match a with
  | Some s => if decide (s = "") then None else Some s
  | None => None
  end.

(** [array.slice(0, end)] for an integer [end]; a negative [end] counts from
    the end of the array.  (A fractional [end] is truncated towards zero
    first, so nothing is lost for the length of the result.) *)
Definition slice0 {A} (end_ : Z) (l : list A) : list A :=
  if (0 <=? end_)%Z then take (Z.to_nat end_) l
  else take (Z.to_nat (Z.of_nat (length l) + end_)) l.

(** [array.sort(compareFn)].  The sort of the platform is stable; it is
    modelled by insertion from the right, which places an element before
    the first later element that [compareFn] does not order before it. *)
Section Sort.
Context {A : Type} (compareFn : A → A → Q).

Fixpoint sort_insert (x : A) (l : list A) : list A :=
  match l with
  | [] => [x]
  | y :: l' =>
      if Qle_bool (compareFn x y) 0 then x :: y :: l'
      else y :: sort_insert x l'
  end.

Definition sort (l : list A) : list A := foldr sort_insert [] l.
End Sort.

(** ** Structured storage: the tables created by [initializeMemorySchema] *)

Module Memory.
Record row : Type := {
  id : string;
  user_id : string;
  content : string;
  embedding_id : string;
  project : string;
  memory_type : string;
  metadata : string;
  created_at : Z;
  updated_at : Z;
  accessed_at : Z;
}.
End Memory.

Module Relationship.
Record row : Type := {
  id : string;
  from_memory_id : string;
  to_memory_id : string;
  relationship_type : string;
  strength : Q;
  created_at : Z;
}.
End Relationship.

Module Session.
Record row : Type := {
  current_project : string;
  last_active : Z;
}.
End Session.

(** ** Workers AI and the Vectorize index *)

Module Embedding.
(** The reply of [env.AI.run(model, { text: [s] })]; [data] holds one
    vector for each text, and is [None] for a reply without the property. *)
Record reply : Type := {
  data : option (list (list Q));
}.
End Embedding.

(** [reply.data[0]]: reading index 0 of [undefined] throws, reading it of an
    empty array gives [undefined]. *)
Definition data_0 (reply : Embedding.reply) : outcome (option (list Q)) :=
  match Embedding.data reply with
  | Some vectors => Ok (head vectors)
  | None => Throw "Cannot read properties of undefined (reading '0')"
  end.

Module Vector.
(** An entry given to [VECTORIZE.upsert]; [values] is what [data[0]] gave. *)
Record entry : Type := {
  id : string;
  values : option (list Q);
  metadata : gmap string json;
}.

(** A match returned by [VECTORIZE.query]; [memoryId] is the
    [metadata.memoryId] attribute of the matched entry, the only
    attribute the search reads.  Scores are compared and subtracted only;
    they are modelled as rationals. *)
Record match_ : Type := {
  memoryId : string;
  score : Q;
}.
End Vector.

(** The state a handler runs against.  [memories] and
    [memory_relationships] keep their rows in insertion order;
    [user_sessions] is keyed by its primary key [user_id]; [vectors] holds
    the entries upserted into the index, keyed by entry id. *)
Record State : Type := {
  memories : list Memory.row;
  memory_relationships : list Relationship.row;
  user_sessions : gmap string Session.row;
  vectors : gmap string Vector.entry;
}.

Definition set_memories (t : list Memory.row) (st : State) : State :=
  {| memories := t;
     memory_relationships := memory_relationships st;
     user_sessions := user_sessions st;
     vectors := vectors st |}.

Definition set_memory_relationships (t : list Relationship.row) (st : State)
  : State :=
  {| memories := memories st;
     memory_relationships := t;
     user_sessions := user_sessions st;
     vectors := vectors st |}.

Definition set_user_sessions (t : gmap string Session.row) (st : State)
  : State :=
  {| memories := memories st;
     memory_relationships := memory_relationships st;
     user_sessions := t;
     vectors := vectors st |}.

Definition set_vectors (t : gmap string Vector.entry) (st : State) : State :=
  {| memories := memories st;
     memory_relationships := memory_relationships st;
     user_sessions := user_sessions st;
     vectors := t |}.

(** ** The environment of one call

    The bindings [env.AI] and [env.VECTORIZE] are external services; the
    identifier drawn by [crypto.randomUUID()] and the clock readings
    ([CURRENT_TIMESTAMP] in SQL, [Date.now()] in the worker) are inputs of
    the call as well. *)
Record Env : Type := {
  (** [env.AI.run(model, { text: [s] })] *)
  AI_run : string → outcome Embedding.reply;
  VECTORIZE_upsert : Vector.entry → outcome unit;
  (** [env.VECTORIZE.query(vector, { topK, filter, returnMetadata })]
      followed by [.matches] *)
  VECTORIZE_query :
    option (list Q) → gmap string json → Z → outcome (list Vector.match_);
  randomUUID : string;
  CURRENT_TIMESTAMP : Z;
  Date_now : Z;
}.

(** ** Handlers: state passing with exceptions

    A statement of a handler body either completes or throws; writes made
    before a throw stay in place, since no handler rolls anything back. *)
Definition Handler (A : Type) : Type := State → outcome A * State.

#[global] Instance handler_ret : MRet Handler := λ A a st, (Ok a, st).
#[global] Instance handler_bind : MBind Handler := λ A B k c st,
  match c st with
  | (Ok a, st') => k a st'
  | (Throw msg, st') => (Throw msg, st')
  end.

(** An expression that does not touch the state. *)
Definition eval {A} (o : outcome A) : Handler A := λ st, (o, st).

Definition get_state : Handler State := λ st, (Ok st, st).

(** [try { body } catch (error) { return handler(error.message) }] *)
Definition try_catch {A} (body : Handler A) (handler : string → A)
  : State → A * State := λ st,
  match body st with
  | (Ok a, st') => (a, st')
  | (Throw msg, st') => (handler msg, st')
  end.

(** ** SQL statements issued through [this.sql.exec]

    [exec(query, ...bindings)] takes one binding for each argument that
    follows the query, and throws unless the statement has as many [?]
    placeholders as the call has bindings.  Every call of the worker passes
    its values as ONE array, [exec(query, [v1, ..., vn])]: that is one
    binding, whatever [n] is.  Where the statement has one placeholder, the
    bound one-element array reads as its element. *)

Definition wrong_number_of_bindings : string :=
  "Wrong number of parameter bindings for SQL query.".

(** The check [exec] makes before it runs a statement with [placeholders]
    placeholders on the arguments [bindings]. *)
Definition sql_exec_bindings {A} (placeholders : nat) (bindings : list A)
  : outcome unit :=
  if decide (length bindings = placeholders) then Ok ()
  else Throw wrong_number_of_bindings.

(** [INSERT INTO memories (id, user_id, content, embedding_id, project,
    memory_type, metadata, created_at, updated_at) VALUES (?, ?, ?, ?, ?,
    ?, ?, CURRENT_TIMESTAMP, CURRENT_TIMESTAMP)] on the array of the seven
    values of [r]: seven placeholders.  [id] is the primary key, so a
    statement that runs throws when the id is taken.  The handlers only
    interpolate the message of the error. *)
Definition sql_insert_memory (r : Memory.row) : Handler unit := λ st,
  match sql_exec_bindings 7
          [[Memory.id r; Memory.user_id r; Memory.content r;
            Memory.embedding_id r; Memory.project r; Memory.memory_type r;
            Memory.metadata r]] with
  | Throw msg => (Throw msg, st)
  | Ok _ =>
      if decide (Memory.id r ∈ Memory.id <$> memories st)
      then (Throw "UNIQUE constraint failed: memories.id", st)
      else (Ok (), set_memories (memories st ++ [r]) st)
  end.

(** [SELECT id, content FROM memories WHERE id = ?] on the array [[x]]:
    one placeholder, one binding. *)
Definition sql_select_memory (x : string) (st : State) : list Memory.row :=
  filter (λ r, Memory.id r = x) (memories st).

(** [GROUP_CONCAT] over the joined relationship rows: NULL when there is
    none. *)
Definition GROUP_CONCAT (l : list string) : option string :=
  match l with
  | [] => None
  | _ => Some (String.concat "," l)
  end.

(** A row of the search query.  The two [GROUP_CONCAT] columns
    [related_memories] and [relationship_types] are present only when
    relationships were requested. *)
Definition SelectedRow : Type :=
  Memory.row * option (option string * option string).

(** The rows that [SELECT m.* FROM memories m WHERE m.id IN (...)] finds
    for the ids [memoryIds], with the two columns of the [LEFT JOIN
    memory_relationships ... GROUP BY m.id] variant when
    [include_relationships] is set.  [sql_select_memories] runs the
    query for one id only, where the order of the rows is not in
    question: under the primary key there is at most one. *)
Definition selected_rows (include_relationships : bool)
    (memoryIds : list string) (st : State) : list SelectedRow :=
  (λ m,
     (m,
      if include_relationships then
        let mr := filter (λ r, Relationship.from_memory_id r = Memory.id m)
                         (memory_relationships st) in
        Some (GROUP_CONCAT (Relationship.to_memory_id <$> mr),
              GROUP_CONCAT (Relationship.relationship_type <$> mr))
      else None))
  <$> filter (λ m, Memory.id m ∈ memoryIds) (memories st).

(** The search query on the array [memoryIds]: one placeholder for each
    id, [IN (${memoryIds.map(() => '?').join(',')})], and one binding.  The
    statement runs only when there is one id, and finds the rows of that
    id. *)
Definition sql_select_memories (include_relationships : bool)
    (memoryIds : list string) : Handler (list SelectedRow) := λ st,
  match sql_exec_bindings (length memoryIds) [memoryIds] with
  | Throw msg => (Throw msg, st)
  | Ok _ => (Ok (selected_rows include_relationships memoryIds st), st)
  end.

(** [INSERT INTO memory_relationships (id, from_memory_id, to_memory_id,
    relationship_type, strength) VALUES (?, ?, ?, ?, ?)] on the array of
    the five values of [r]: five placeholders.  [id] is the primary key. *)
Definition sql_insert_relationship (r : Relationship.row) : Handler unit :=
  λ st,
  match sql_exec_bindings 5
          [[JStr (Relationship.id r); JStr (Relationship.from_memory_id r);
            JStr (Relationship.to_memory_id r);
            JStr (Relationship.relationship_type r);
            JNum (Relationship.strength r)]] with
  | Throw msg => (Throw msg, st)
  | Ok _ =>
      if decide
           (Relationship.id r ∈ Relationship.id <$> memory_relationships st)
      then (Throw "UNIQUE constraint failed: memory_relationships.id", st)
      else (Ok (),
            set_memory_relationships (memory_relationships st ++ [r]) st)
  end.

(** [INSERT OR REPLACE INTO user_sessions (user_id, current_project,
    last_active) VALUES (?, ?, CURRENT_TIMESTAMP)] on the array
    [[userId, project]]: two placeholders. *)
Definition sql_replace_session (userId project : string) (now : Z)
  : Handler unit := λ st,
  match sql_exec_bindings 2 [[userId; project]] with
  | Throw msg => (Throw msg, st)
  | Ok _ =>
      (Ok (),
       set_user_sessions
         (<[userId := {| Session.current_project := project;
                         Session.last_active := now |}]> (user_sessions st))
         st)
  end.

(** [await this.env.VECTORIZE.upsert([entry])] *)
Definition vectorize_upsert (env : Env) (e : Vector.entry) : Handler unit :=
  λ st,
  match VECTORIZE_upsert env e with
  | Ok _ => (Ok (), set_vectors (<[Vector.id e := e]> (vectors st)) st)
  | Throw msg => (Throw msg, st)
  end.

(** ** Tool results

    Every handler returns [{ content: [{ type: "text", text }] }]; one
    constructor stands for each text template of the source, carrying the
    values the template interpolates. *)

Module Enhanced.
(** An element of [enhancedResults]: the selected row with
    [semantic_score] added and [metadata] replaced by its parsed value. *)
Record row : Type := {
  memory : Memory.row;
  related : option (option string * option string);
  semantic_score : Q;
  metadata : json;
}.
End Enhanced.

Inductive ToolResult : Type :=
  (** "Memory stored successfully!" with ID, Project, Type and Content *)
  | MemoryStored (memoryId project type preview : string)
  (** "Error storing memory: <message>" *)
  | ErrorStoringMemory (message : string)
  (** "No memories found for query: <query>" *)
  | NoMemoriesFound (query : string)
  (** "Found <n> memories for <query>" followed by one block per memory *)
  | FoundMemories (query : string) (enhancedResults : list Enhanced.row)
  (** "Error searching memories: <message>" *)
  | ErrorSearchingMemories (message : string)
  (** "One or both memories not found" *)
  | MemoriesNotFound
  (** "Relationship created successfully!" with Type, Strength, From, To;
      the two excerpts are each followed by "..." *)
  | RelationshipCreated (relationship_type : string) (strength : Q)
      (from_preview to_preview : string)
  (** "Error creating relationship: <message>" *)
  | ErrorCreatingRelationship (message : string)
  (** "Switched to project: <project>" *)
  | SwitchedProject (project : string)
  (** "Error switching project: <message>" *)
  | ErrorSwitchingProject (message : string)
  (** the call is rejected by the tool's input schema before its handler
      runs *)
  | InvalidArguments.

(** ** Tool arguments *)

Module AddMemoryArgs.
Record t : Type := {
  content : string;
  project : option string;
  type : option string;
  metadata : option (gmap string json);
}.
End AddMemoryArgs.

Module SearchMemoriesArgs.
Record t : Type := {
  query : string;
  project : option string;
  type : option string;
  limit : option Z;
  include_relationships : option bool;
}.
End SearchMemoriesArgs.

Module RelationshipArgs.
Record t : Type := {
  from_memory_id : string;
  to_memory_id : string;
  relationship_type : string;
  strength : option Q;
}.
End RelationshipArgs.

Module SwitchProjectArgs.
Record t : Type := {
  project : string;
}.
End SwitchProjectArgs.

(** ** The handlers *)

(** [getUserId()] *)
Definition getUserId : string := "mem0-mcp-user".


(** [{ ...base, ...extra }]: properties of [extra] win. *)
Definition spread (base extra : gmap string json) : gmap string json :=
  extra ∪ base.

Section Handlers.
Context `{JsonCodec} `{TextOps}.

(** [content.substring(0, n)] followed by "..." when [content] is longer. *)
Definition preview (n : nat) (content : string) : string :=
  String_substring n content
  +:+ (if decide (n < String_length content) then "..." else "").

(** The [metadata] of the index entry written by [addMemory]. *)
Definition vector_metadata (memoryId userId content project type : string)
    (timestamp : Z) (metadata : gmap string json) : gmap string json :=
  spread
    (list_to_map
       [("memoryId", JStr memoryId);
        ("userId", JStr userId);
        ("content", JStr (String_substring 1000 content));
        ("project", JStr project);
        ("type", JStr type);
        ("timestamp", JNum (inject_Z timestamp))])
    metadata.

(** The record named by the [INSERT INTO memories] of [addMemory]: the
    seven values of its array and the three timestamps. *)
Definition memory_row (env : Env) (args : AddMemoryArgs.t) : Memory.row :=
  let content := AddMemoryArgs.content args in
  let project := default "default" (AddMemoryArgs.project args) in
  let type := default "general" (AddMemoryArgs.type args) in
  let metadata := default ∅ (AddMemoryArgs.metadata args) in
  let memoryId := randomUUID env in
  let embeddingId := "memory-" +:+ memoryId in
  let userId := getUserId in
  {| Memory.id := memoryId;
     Memory.user_id := userId;
     Memory.content := content;
     Memory.embedding_id := embeddingId;
     Memory.project := project;
     Memory.memory_type := type;
     Memory.metadata := JSON_stringify (JObj metadata);
     Memory.created_at := CURRENT_TIMESTAMP env;
     Memory.updated_at := CURRENT_TIMESTAMP env;
     Memory.accessed_at := CURRENT_TIMESTAMP env |}.

(** The entry given to [VECTORIZE.upsert] by [addMemory]. *)
Definition vector_entry (env : Env) (args : AddMemoryArgs.t)
    (embedding : option (list Q)) : Vector.entry :=
  let content := AddMemoryArgs.content args in
  let project := default "default" (AddMemoryArgs.project args) in
  let type := default "general" (AddMemoryArgs.type args) in
  let metadata := default ∅ (AddMemoryArgs.metadata args) in
  let memoryId := randomUUID env in
  let embeddingId := "memory-" +:+ memoryId in
  let userId := getUserId in
  {| Vector.id := embeddingId;
     Vector.values := embedding;
     Vector.metadata :=
       vector_metadata memoryId userId content project type
         (Date_now env) metadata |}.

(** The reply of the embedding call is kept; its [data[0]] is read when the
    entry for the index is built, after the [INSERT]. *)
Definition addMemory (env : Env) (args : AddMemoryArgs.t)
  : State → ToolResult * State :=
  let content := AddMemoryArgs.content args in
  let project := default "default" (AddMemoryArgs.project args) in
  let type := default "general" (AddMemoryArgs.type args) in
  let memoryId := randomUUID env in
  try_catch
    (embedding ← eval (AI_run env content);
     _ ← sql_insert_memory (memory_row env args);
     values ← eval (data_0 embedding);
     _ ← vectorize_upsert env (vector_entry env args values);
     mret (MemoryStored memoryId project type (preview 200 content)))
    ErrorStoringMemory.

(** [const vectorFilter = { userId }; if (project) ...; if (type) ...] *)
Definition vectorFilter (userId : string) (project type : option string)
  : gmap string json :=
  let f0 : gmap string json := {["userId" := JStr userId]} in
  let f1 := match truthy project with
            | Some p => <["project" := JStr p]> f0
            | None => f0
            end in
  match truthy type with
  | Some t => <["type" := JStr t]> f1
  | None => f1
  end.

(** [scoreMap.get(row.id) || 0] *)
Definition score_or_zero (scoreMap : gmap string Q) (id : string) : Q :=
  match scoreMap !! id with
  | Some s => if Qeq_bool s 0 then 0 else s
  | None => 0
  end.

(** The callback of [results.map]: [JSON.parse] may throw. *)
Definition enhance (scoreMap : gmap string Q) (r : SelectedRow)
  : outcome Enhanced.row :=
  metadata ← JSON_parse (or_string (Memory.metadata r.1) "{}");
  mret {| Enhanced.memory := r.1;
          Enhanced.related := r.2;
          Enhanced.semantic_score := score_or_zero scoreMap (Memory.id r.1);
          Enhanced.metadata := metadata |}.

(** [(a, b) => b.semantic_score - a.semantic_score] *)
Definition by_score (a b : Enhanced.row) : Q :=
  Enhanced.semantic_score b - Enhanced.semantic_score a.

Definition searchMemories (env : Env) (args : SearchMemoriesArgs.t)
  : State → ToolResult * State :=
  let query := SearchMemoriesArgs.query args in
  let project := SearchMemoriesArgs.project args in
  let type := SearchMemoriesArgs.type args in
  let limit := default 10%Z (SearchMemoriesArgs.limit args) in
  let include_relationships :=
    default false (SearchMemoriesArgs.include_relationships args) in
  let userId := getUserId in
  try_catch
    (queryEmbedding ← eval (AI_run env query);
     vector ← eval (data_0 queryEmbedding);
     matches ← eval (VECTORIZE_query env vector
                       (vectorFilter userId project type) (limit * 2));
     if decide (length matches = 0) then mret (NoMemoriesFound query)
     else
       let memoryIds := Vector.memoryId <$> matches in
       results ← sql_select_memories include_relationships memoryIds;
       let scoreMap : gmap string Q :=
         foldl (λ m mt, <[Vector.memoryId mt := Vector.score mt]> m) ∅ matches in
       enhanced ← eval (mapM (enhance scoreMap) results);
       mret (FoundMemories query (slice0 limit (sort by_score enhanced))))
    ErrorSearchingMemories.

(** The row named by the [INSERT INTO memory_relationships] of
    [createMemoryRelationship]: the five values of its array and the
    default timestamp. *)
Definition relationship_row (env : Env) (args : RelationshipArgs.t)
  : Relationship.row :=
  {| Relationship.id := randomUUID env;
     Relationship.from_memory_id := RelationshipArgs.from_memory_id args;
     Relationship.to_memory_id := RelationshipArgs.to_memory_id args;
     Relationship.relationship_type :=
       RelationshipArgs.relationship_type args;
     Relationship.strength :=
       default (1 # 2) (RelationshipArgs.strength args);
     Relationship.created_at := CURRENT_TIMESTAMP env |}.

Definition createMemoryRelationship (env : Env) (args : RelationshipArgs.t)
  : State → ToolResult * State :=
  let from_memory_id := RelationshipArgs.from_memory_id args in
  let to_memory_id := RelationshipArgs.to_memory_id args in
  let relationship_type := RelationshipArgs.relationship_type args in
  let strength := default (1 # 2) (RelationshipArgs.strength args) in
  try_catch
    (st ← get_state;
     let fromMemory := head (sql_select_memory from_memory_id st) in
     let toMemory := head (sql_select_memory to_memory_id st) in
     match fromMemory, toMemory with
     | Some fromMemory, Some toMemory =>
         _ ← sql_insert_relationship (relationship_row env args);
         mret (RelationshipCreated relationship_type strength
                 (String_substring 100 (Memory.content fromMemory))
                 (String_substring 100 (Memory.content toMemory)))
     | _, _ => mret MemoriesNotFound
     end)
    ErrorCreatingRelationship.

Definition switchProject (env : Env) (args : SwitchProjectArgs.t)
  : State → ToolResult * State :=
  let project := SwitchProjectArgs.project args in
  let userId := getUserId in
  try_catch
    (_ ← sql_replace_session userId project (CURRENT_TIMESTAMP env);
     mret (SwitchedProject project))
    ErrorSwitchingProject.

End Handlers.

(** ** The [add-memory] tool

    [init] registers the handler behind an input schema: [content:
    z.string()], [project] and [type] optional strings, and [metadata:
    z.object({}).optional()].  An object schema keeps the keys it declares;
    this one declares none, so the metadata the handler receives, when the
    caller gave some, is the empty object.  The handler is private: a call
    reaches it through the tool only. *)

Definition add_memory_schema (raw : AddMemoryArgs.t) : AddMemoryArgs.t :=
  {| AddMemoryArgs.content := AddMemoryArgs.content raw;
     AddMemoryArgs.project := AddMemoryArgs.project raw;
     AddMemoryArgs.type := AddMemoryArgs.type raw;
     AddMemoryArgs.metadata := (λ _, ∅) <$> AddMemoryArgs.metadata raw |}.

Definition add_memory_tool `{JsonCodec} `{TextOps} (env : Env)
    (raw : AddMemoryArgs.t) : State → ToolResult * State :=
  addMemory env (add_memory_schema raw).

(** ** The [create-memory-relationship] tool

    [init] registers the handler behind an input schema:
    [relationship_type: z.enum([...])] and
    [strength: z.number().min(0).max(1).optional().default(0.5)].  The
    server parses the arguments of a call against the schema and runs the
    handler, on the parsed arguments, only when they conform. *)

Definition relationship_type_enum : list string :=
  ["influences"; "depends_on"; "relates_to"; "contradicts"; "extends"].

(** [z.number().min(0).max(1)] *)
Definition strength_schema (s : Q) : bool := Qle_bool 0 s && Qle_bool s 1.

Definition relationship_schema (raw : RelationshipArgs.t)
  : option RelationshipArgs.t :=
  if decide (RelationshipArgs.relationship_type raw ∈ relationship_type_enum)
  then
    match RelationshipArgs.strength raw with
    | None =>
        Some {| RelationshipArgs.from_memory_id :=
                  RelationshipArgs.from_memory_id raw;
                RelationshipArgs.to_memory_id :=
                  RelationshipArgs.to_memory_id raw;
                RelationshipArgs.relationship_type :=
                  RelationshipArgs.relationship_type raw;
                RelationshipArgs.strength := Some (1 # 2) |}
    | Some s => if strength_schema s then Some raw else None
    end
  else None.

Definition create_memory_relationship_tool `{JsonCodec} `{TextOps}
    (env : Env) (raw : RelationshipArgs.t) : State → ToolResult * State :=
  λ st,
  match relationship_schema raw with
  | Some args => createMemoryRelationship env args st
  | None => (InvalidArguments, st)
  end.

(** ** Reading a memory back *)

Module MemoryRecord.
Record t : Type := {
  id : string;
  owner : string;
  content : string;
  project : string;
  type : string;
  metadata : json;
  created : Z;
  updated : Z;
  accessed : Z;
}.
End MemoryRecord.

(** Modelled from the spec: [getMemory(id) → Memory | NotFound], which the
    worker does not define.  It reads the row of [memories] with the given
    id, the way [createMemoryRelationship] resolves an endpoint, and decodes
    the [metadata] column the way [searchMemories] does. *)
Definition getMemory `{JsonCodec} (id : string) (st : State)
  : outcome (option MemoryRecord.t) :=
  match head (sql_select_memory id st) with
  | None => Ok None
  | Some r =>
      metadata ← JSON_parse (or_string (Memory.metadata r) "{}");
      mret (Some {| MemoryRecord.id := Memory.id r;
                    MemoryRecord.owner := Memory.user_id r;
                    MemoryRecord.content := Memory.content r;
                    MemoryRecord.project := Memory.project r;
                    MemoryRecord.type := Memory.memory_type r;
                    MemoryRecord.metadata := metadata;
                    MemoryRecord.created := Memory.created_at r;
                    MemoryRecord.updated := Memory.updated_at r;
                    MemoryRecord.accessed := Memory.accessed_at r |})
  end.

(** ** A codec for worked examples

    JSON text of flat objects whose values are strings free of quotes and
    backslashes; enough to run the handlers on concrete metadata. *)
Module FlatJson.

Definition dquote : Ascii.ascii := Ascii.ascii_of_nat 34.

Definition quoted (s : string) : string :=
  String dquote s +:+ String dquote "".

Definition member (kv : string * json) : string :=
  quoted kv.1 +:+ ":" +:+
  match kv.2 with
  | JStr s => quoted s
  | _ => "null"
  end.

Definition stringify (j : json) : string :=
  match j with
  | JObj o => "{" +:+ String.concat "," (member <$> map_to_list o) +:+ "}"
  | JStr s => quoted s
  | _ => "null"
  end.

(** Reads up to the closing quote; returns the text read and the rest. *)
Fixpoint read_to_quote (s : string) : option (string * string) :=
  match s with
  | EmptyString => None
  | String c s' =>
      if Ascii.eqb c dquote then Some (EmptyString, s')
      else '(t, rest) ← read_to_quote s'; Some (String c t, rest)
  end.

Definition read_string (s : string) : option (string * string) :=
  match s with
  | String c s' => if Ascii.eqb c dquote then read_to_quote s' else None
  | EmptyString => None
  end.

Fixpoint read_members (fuel : nat) (s : string) (acc : gmap string json)
  : option (gmap string json) :=
  match fuel with
  | O => None
  | S fuel' =>
      '(k, s1) ← read_string s;
      match s1 with
      | String ":"%char s2 =>
          '(v, s3) ← read_string s2;
          let acc' := <[k := JStr v]> acc in
          match s3 with
          | String "}"%char EmptyString => Some acc'
          | String ","%char s4 => read_members fuel' s4 acc'
          | _ => None
          end
      | _ => None
      end
  end.

Definition parse (s : string) : outcome json :=
  match s with
  | String "{"%char (String "}"%char EmptyString) => Ok (JObj ∅)
  | String "{"%char s' =>
      match read_members (String.length s') s' ∅ with
      | Some o => Ok (JObj o)
      | None => Throw "Unexpected token in JSON"
      end
  | _ => Throw "Unexpected token in JSON"
  end.

Definition codec : JsonCodec :=
  {| JSON_stringify := stringify; JSON_parse := parse |}.

End FlatJson.

(** Text of ASCII characters, for worked examples: there a byte of the
    string, a UTF-16 code unit and a character are the same thing. *)
#[global] Instance ascii_text : TextOps :=
  {| String_length := String.length;
     String_substring := String.substring 0;
     SQL_LENGTH := String.length |}.

(** ** Concrete runs *)

Module Scenario.

Definition empty : State :=
  {| memories := []; memory_relationships := [];
     user_sessions := ∅; vectors := ∅ |}.

(** A reply of the embedding service with one vector. *)
Definition reply : Embedding.reply :=
  {| Embedding.data := Some [[1 # 2; 1 # 4]] |}.

(** An environment in which both services answer; the index reports
    [matches] for every query. *)
Definition env (uuid : string) (now : Z) (matches : list Vector.match_)
  : Env :=
  {| AI_run := λ _, Ok reply;
     VECTORIZE_upsert := λ _, Ok ();
     VECTORIZE_query := λ _ _ _, Ok matches;
     randomUUID := uuid;
     CURRENT_TIMESTAMP := now;
     Date_now := now * 1000 |}.

(** The same, with an index that rejects the upsert. *)
Definition env_index_down (uuid : string) (now : Z) : Env :=
  {| AI_run := λ _, Ok reply;
     VECTORIZE_upsert := λ _, Throw "index unavailable";
     VECTORIZE_query := λ _ _ _, Throw "index unavailable";
     randomUUID := uuid;
     CURRENT_TIMESTAMP := now;
     Date_now := now * 1000 |}.

(** An environment whose embedding service fails. *)
Definition env_ai_down (uuid : string) (now : Z) (msg : string) : Env :=
  {| AI_run := λ _, Throw msg;
     VECTORIZE_upsert := λ _, Ok ();
     VECTORIZE_query := λ _ _ _, Ok [];
     randomUUID := uuid;
     CURRENT_TIMESTAMP := now;
     Date_now := now * 1000 |}.

Definition add (content : string) : AddMemoryArgs.t :=
  {| AddMemoryArgs.content := content;
     AddMemoryArgs.project := None;
     AddMemoryArgs.type := None;
     AddMemoryArgs.metadata := None |}.

Definition search (query : string) : SearchMemoriesArgs.t :=
  {| SearchMemoriesArgs.query := query;
     SearchMemoriesArgs.project := None;
     SearchMemoriesArgs.type := None;
     SearchMemoriesArgs.limit := None;
     SearchMemoriesArgs.include_relationships := None |}.

(** Two rows of [memories], created at times 100 and 200. *)
Definition m1 : Memory.row :=
  {| Memory.id := "m-1";
     Memory.user_id := "mem0-mcp-user";
     Memory.content := "User prefers TypeScript";
     Memory.embedding_id := "memory-m-1";
     Memory.project := "default";
     Memory.memory_type := "general";
     Memory.metadata := "{}";
     Memory.created_at := 100;
     Memory.updated_at := 100;
     Memory.accessed_at := 100 |}.

Definition m2 : Memory.row :=
  {| Memory.id := "m-2";
     Memory.user_id := "mem0-mcp-user";
     Memory.content := "User dislikes verbose configs";
     Memory.embedding_id := "memory-m-2";
     Memory.project := "default";
     Memory.memory_type := "general";
     Memory.metadata := "{}";
     Memory.created_at := 200;
     Memory.updated_at := 200;
     Memory.accessed_at := 200 |}.

(** Tables that hold both rows. *)
Definition two_memories : State := set_memories [m1; m2] empty.

(** A search result for a row stored with empty metadata. *)
Definition hit (m : Memory.row) (score : Q) : Enhanced.row :=
  {| Enhanced.memory := m;
     Enhanced.related := None;
     Enhanced.semantic_score := score;
     Enhanced.metadata := JObj ∅ |}.

Definition candidate (memoryId : string) (score : Q) : Vector.match_ :=
  {| Vector.memoryId := memoryId; Vector.score := score |}.

(** A call with every optional argument given. *)
Definition add_full : AddMemoryArgs.t :=
  {| AddMemoryArgs.content := "User prefers TypeScript for AI projects";
     AddMemoryArgs.project := Some "dev";
     AddMemoryArgs.type := Some "preference";
     AddMemoryArgs.metadata := Some {["priority" := JStr "high"]} |}.

(** A call whose metadata names another user. *)
Definition add_as_other : AddMemoryArgs.t :=
  {| AddMemoryArgs.content := "User prefers TypeScript";
     AddMemoryArgs.project := None;
     AddMemoryArgs.type := None;
     AddMemoryArgs.metadata := Some {["userId" := JStr "someone-else"]} |}.

Definition relate (from_memory_id to_memory_id relationship_type : string)
    (strength : option Q) : RelationshipArgs.t :=
  {| RelationshipArgs.from_memory_id := from_memory_id;
     RelationshipArgs.to_memory_id := to_memory_id;
     RelationshipArgs.relationship_type := relationship_type;
     RelationshipArgs.strength := strength |}.

End Scenario.

(** ** The ranking asked of search results

    In the words of the specification: sorted by similarity score
    descending, ties between equal scores broken by most-recent created
    timestamp first. *)
Definition ranked_as_specified (rows : list Enhanced.row) : Prop :=
  StronglySorted
    (λ a b,
       (Enhanced.semantic_score b < Enhanced.semantic_score a)%Q
       ∨ ((Enhanced.semantic_score a == Enhanced.semantic_score b)%Q
          ∧ (Memory.created_at (Enhanced.memory b)
             ≤ Memory.created_at (Enhanced.memory a))%Z))
    rows.

(** ** Memory statistics: [getMemoryStats] *)

Module StatsArgs.
Record t : Type := {
  project : option string;
}.
End StatsArgs.

(** The two results of [getMemoryStats]: the "Memory Statistics" text, with
    the four aggregates (the average already passed through [Math.round])
    and one line per day of recent activity, or "Error getting stats:
    <message>". *)
Inductive StatsResult : Type :=
  | MemoryStatistics (total_memories unique_types projects : nat)
      (avg_content_length : Z) (recentActivity : list (Z * nat))
  | ErrorGettingStats (message : string).

(** [WHERE user_id = ?], extended by [AND project = ?] under
    [if (project)]. *)
Definition whereClause (userId : string) (project : option string)
    (m : Memory.row) : Prop :=
  Memory.user_id m = userId
  ∧ match truthy project with
    | Some p => Memory.project m = p
    | None => True
    end.

#[global] Instance whereClause_dec userId project m :
  Decision (whereClause userId project m).
Proof. unfold whereClause. destruct (truthy project); apply _. Defined.

(** [let params = [userId]; if (project) params.push(project)] *)
Definition stats_params (userId : string) (project : option string)
  : list string :=
  match truthy project with
  | Some p => [userId; p]
  | None => [userId]
  end.

(** [SELECT ... FROM memories ${whereClause}] on the array [params]: one
    placeholder for each element of [params], one binding.  The rows the
    aggregates of either query of [getMemoryStats] range over. *)
Definition sql_select_where (userId : string) (project : option string)
  : Handler (list Memory.row) := λ st,
  match sql_exec_bindings (length (stats_params userId project))
          [stats_params userId project] with
  | Throw msg => (Throw msg, st)
  | Ok _ => (Ok (filter (whereClause userId project) (memories st)), st)
  end.

(** [COUNT(DISTINCT column)] *)
Definition COUNT_DISTINCT (l : list string) : nat := length (remove_dups l).

(** [AVG(column)]: NULL over no rows. *)
Definition AVG (l : list nat) : option Q :=
  match l with
  | [] => None
  | _ => Some (inject_Z (Z.of_nat (sum_list l))
               / inject_Z (Z.of_nat (length l)))%Q
  end.

(** [Math.round]: the nearest integer, halves upwards; [null] rounds to 0. *)
Definition Math_round (x : option Q) : Z :=
  match x with
  | Some q => Qfloor (q + (1 # 2))
  | None => 0%Z
  end.

(** [DATE(created_at)]: timestamps count seconds, a date is a day number.
    Dates as SQLite writes them (year, month, day) sort as their days do. *)
Definition DATE (t : Z) : Z := (t / 86400)%Z.

(** [SELECT DATE(created_at) as date, COUNT( * ) as count ...
    GROUP BY DATE(created_at) ORDER BY date DESC LIMIT 7] over the rows of
    the [WHERE] clause. *)
Definition sql_recent_activity (rows : list Memory.row) : list (Z * nat) :=
  let dates := (λ m, DATE (Memory.created_at m)) <$> rows in
  take 7
    ((λ d, (d, length (filter (λ m, DATE (Memory.created_at m) = d) rows)))
     <$> merge_sort Z.ge (remove_dups dates)).

Definition getMemoryStats `{TextOps} (env : Env) (args : StatsArgs.t)
  : State → StatsResult * State :=
  let project := StatsArgs.project args in
  let userId := getUserId in
  try_catch
    (rows ← sql_select_where userId project;
     let total_memories := length rows in
     let unique_types := COUNT_DISTINCT (Memory.memory_type <$> rows) in
     let projects := COUNT_DISTINCT (Memory.project <$> rows) in
     let avg_content_length :=
       AVG ((λ m, SQL_LENGTH (Memory.content m)) <$> rows) in
     rows' ← sql_select_where userId project;
     let recentActivity := sql_recent_activity rows' in
     mret (MemoryStatistics total_memories unique_types projects
             (Math_round avg_content_length) recentActivity))
    ErrorGettingStats.

(** ** The tools registered by [init]

    A call names one of the five tools; it runs the tool's handler, behind
    the input schema of the tool, in the environment of that call. *)
Inductive Call : Type :=
  | add_memory (env : Env) (raw : AddMemoryArgs.t)
  | search_memories (env : Env) (args : SearchMemoriesArgs.t)
  | create_memory_relationship (env : Env) (raw : RelationshipArgs.t)
  | switch_project (env : Env) (args : SwitchProjectArgs.t)
  | get_memory_stats (env : Env) (args : StatsArgs.t).

(** The state a call leaves behind. *)
Definition call `{JsonCodec} `{TextOps} (c : Call) (st : State) : State :=
  match c with
  | add_memory env raw => (add_memory_tool env raw st).2
  | search_memories env args => (searchMemories env args st).2
  | create_memory_relationship env raw =>
      (create_memory_relationship_tool env raw st).2
  | switch_project env args => (switchProject env args st).2
  | get_memory_stats env args => (getMemoryStats env args st).2
  end.

(** A sequence of calls, served one after the other. *)
Definition calls `{JsonCodec} `{TextOps} (cs : list Call) (st : State)
  : State :=
  foldl (λ s c, call c s) st cs.

(** The state of a new object: the tables [initializeMemorySchema] creates
    are empty and nothing has been upserted. *)
Definition created : State :=
  {| memories := []; memory_relationships := [];
     user_sessions := ∅; vectors := ∅ |}.

(** ** A store with a relationship *)

Module Walkthrough.

(** A relationship from the first memory of [Scenario] to the second. *)
Definition r1 : Relationship.row :=
  {| Relationship.id := "r-1";
     Relationship.from_memory_id := "m-1";
     Relationship.to_memory_id := "m-2";
     Relationship.relationship_type := "relates_to";
     Relationship.strength := 4 # 5;
     Relationship.created_at := 250 |}.

Definition related : State :=
  set_memory_relationships [r1] Scenario.two_memories.

(** The index names the first memory. *)
Definition candidates : list Vector.match_ :=
  [Scenario.candidate "m-1" (3 # 4)].

(** A search for one result, relationships included. *)
Definition search : SearchMemoriesArgs.t :=
  {| SearchMemoriesArgs.query := "typescript";
     SearchMemoriesArgs.project := Some "default";
     SearchMemoriesArgs.type := None;
     SearchMemoriesArgs.limit := Some 1%Z;
     SearchMemoriesArgs.include_relationships := Some true |}.

Definition found : list Enhanced.row :=
  [{| Enhanced.memory := Scenario.m1;
      Enhanced.related := Some (Some "m-2", Some "relates_to");
      Enhanced.semantic_score := 3 # 4;
      Enhanced.metadata := JObj ∅ |}].

Definition all_projects : StatsArgs.t := {| StatsArgs.project := None |}.

End Walkthrough.

(** * Properties *)

(** ** The statements as [exec] runs them *)

Section Statements.
Context `{JsonCodec} `{TextOps}.

Lemma sql_insert_memory_run (r : Memory.row) (st : State) :
  sql_insert_memory r st = (Throw wrong_number_of_bindings, st).
Proof. reflexivity. Qed.

Lemma sql_insert_relationship_run (r : Relationship.row) (st : State) :
  sql_insert_relationship r st = (Throw wrong_number_of_bindings, st).
Proof. reflexivity. Qed.

Lemma sql_replace_session_run (userId project : string) (now : Z)
    (st : State) :
  sql_replace_session userId project now st
  = (Throw wrong_number_of_bindings, st).
Proof. reflexivity. Qed.

Lemma sql_select_memories_run (include_relationships : bool)
    (memoryIds : list string) (st : State) :
  sql_select_memories include_relationships memoryIds st
  = if decide (length memoryIds = 1)
    then (Ok (selected_rows include_relationships memoryIds st), st)
    else (Throw wrong_number_of_bindings, st).
Proof.
  unfold sql_select_memories, sql_exec_bindings. cbn [length].
  destruct (decide (1 = length memoryIds)) as [Hone|Hmany].
  - rewrite decide_True by congruence. reflexivity.
  - rewrite decide_False by congruence. reflexivity.
Qed.

Lemma sql_select_memories_state (include_relationships : bool)
    (memoryIds : list string) (st : State) :
  (sql_select_memories include_relationships memoryIds st).2 = st.
Proof.
  unfold sql_select_memories.
  destruct (sql_exec_bindings _ _); reflexivity.
Qed.

Lemma sql_select_where_run (userId : string) (project : option string)
    (st : State) :
  sql_select_where userId project st
  = match truthy project with
    | Some _ => (Throw wrong_number_of_bindings, st)
    | None =>
        (Ok (filter (whereClause userId project) (memories st)), st)
    end.
Proof.
  unfold sql_select_where, stats_params.
  destruct (truthy project); reflexivity.
Qed.

(** The embedding call fails, or the [INSERT] does. *)
Lemma addMemory_run (env : Env) (args : AddMemoryArgs.t) (st : State) :
  addMemory env args st
  = (ErrorStoringMemory
       match AI_run env (AddMemoryArgs.content args) with
       | Ok _ => wrong_number_of_bindings
       | Throw msg => msg
       end,
     st).
Proof.
  unfold addMemory, try_catch, mbind, handler_bind, eval.
  destruct (AI_run env (AddMemoryArgs.content args)); reflexivity.
Qed.

Lemma switchProject_run (env : Env) (args : SwitchProjectArgs.t)
    (st : State) :
  switchProject env args st
  = (ErrorSwitchingProject wrong_number_of_bindings, st).
Proof. reflexivity. Qed.

Lemma createMemoryRelationship_run (env : Env) (args : RelationshipArgs.t)
    (st : State) :
  createMemoryRelationship env args st
  = match head (sql_select_memory (RelationshipArgs.from_memory_id args) st),
          head (sql_select_memory (RelationshipArgs.to_memory_id args) st)
    with
    | Some _, Some _ => (ErrorCreatingRelationship wrong_number_of_bindings, st)
    | _, _ => (MemoriesNotFound, st)
    end.
Proof.
  unfold createMemoryRelationship, try_catch, mbind, handler_bind, get_state.
  destruct (head (sql_select_memory (RelationshipArgs.from_memory_id args) st));
    destruct (head (sql_select_memory (RelationshipArgs.to_memory_id args) st));
    reflexivity.
Qed.

Lemma getMemoryStats_run (env : Env) (args : StatsArgs.t) (st : State) :
  getMemoryStats env args st
  = match truthy (StatsArgs.project args) with
    | Some _ => (ErrorGettingStats wrong_number_of_bindings, st)
    | None =>
        let rows :=
          filter (whereClause getUserId (StatsArgs.project args))
                 (memories st) in
        (MemoryStatistics (length rows)
           (COUNT_DISTINCT (Memory.memory_type <$> rows))
           (COUNT_DISTINCT (Memory.project <$> rows))
           (Math_round (AVG ((λ m, SQL_LENGTH (Memory.content m)) <$> rows)))
           (sql_recent_activity rows),
         st)
    end.
Proof.
  unfold getMemoryStats, try_catch, mbind, handler_bind.
  rewrite !sql_select_where_run.
  destruct (truthy (StatsArgs.project args)) eqn:Hproject; [reflexivity|].
  rewrite sql_select_where_run, Hproject. reflexivity.
Qed.

Lemma searchMemories_state (env : Env) (args : SearchMemoriesArgs.t)
    (st : State) :
  (searchMemories env args st).2 = st.
Proof.
  unfold searchMemories, try_catch, mbind, handler_bind, eval, mret,
    handler_ret.
  destruct (AI_run env _) as [reply|]; [|reflexivity].
  destruct (data_0 reply); [|reflexivity].
  destruct (VECTORIZE_query env _ _ _) as [matches|]; [|reflexivity].
  case_decide; [reflexivity|].
  pose proof (sql_select_memories_state
                (default false (SearchMemoriesArgs.include_relationships args))
                (Vector.memoryId <$> matches) st) as Hst.
  destruct (sql_select_memories _ _ st) as [[results|] st']; cbn in Hst;
    subst st'; [|reflexivity].
  destruct (mapM _ results); reflexivity.
Qed.

(** No tool call changes a table or the index. *)
Lemma call_unchanged (c : Call) (st : State) : call c st = st.
Proof.
  destruct c as [env raw|env args|env raw|env args|env args];
    cbn [call].
  - unfold add_memory_tool. rewrite addMemory_run. reflexivity.
  - apply searchMemories_state.
  - unfold create_memory_relationship_tool.
    destruct (relationship_schema raw); [|reflexivity].
    rewrite createMemoryRelationship_run.
    destruct (head _); [destruct (head _)|]; reflexivity.
  - reflexivity.
  - rewrite getMemoryStats_run.
    destruct (truthy _); reflexivity.
Qed.

Lemma calls_unchanged (cs : list Call) (st : State) : calls cs st = st.
Proof.
  unfold calls. induction cs as [|c cs IH] in st |- *; [reflexivity|].
  cbn [foldl]. rewrite call_unchanged. apply IH.
Qed.

End Statements.

(** ** Storing a memory *)

Section AddMemory.
Context `{JsonCodec} `{TextOps}.


(** What the schema leaves of the metadata of a call. *)
Lemma add_memory_schema_metadata (raw : AddMemoryArgs.t) :
  default ∅ (AddMemoryArgs.metadata (add_memory_schema raw)) = ∅.
Proof.
  cbn [AddMemoryArgs.metadata add_memory_schema].
  destruct (AddMemoryArgs.metadata raw); reflexivity.
Qed.


End AddMemory.

(** ** Relationships *)

Section Relationships.
Context `{JsonCodec} `{TextOps}.

Lemma select_unknown (x : string) (st : State) :
  x ∉ Memory.id <$> memories st → head (sql_select_memory x st) = None.
Proof.
  unfold sql_select_memory. intros Hx.
  induction (memories st) as [|r l IH]; [reflexivity|].
  rewrite fmap_cons, not_elem_of_cons in Hx. destruct Hx as [Hr Hl].
  rewrite filter_cons_False by congruence. auto.
Qed.

(** C5.  When [from_memory_id] or [to_memory_id] is not the id of a row of
    [memories], [createMemoryRelationship] returns "One or both memories
    not found" and leaves the state, hence [memory_relationships], as it
    was. *)
Theorem createMemoryRelationship_not_found (env : Env)
    (args : RelationshipArgs.t) (st : State) :
  RelationshipArgs.from_memory_id args ∉ Memory.id <$> memories st
  ∨ RelationshipArgs.to_memory_id args ∉ Memory.id <$> memories st →
  createMemoryRelationship env args st = (MemoriesNotFound, st).
Proof.
  intros Hmissing.
  unfold createMemoryRelationship, try_catch, mbind, handler_bind, get_state.
  destruct Hmissing as [Hfrom|Hto].
  - rewrite (select_unknown _ _ Hfrom). reflexivity.
  - rewrite (select_unknown _ _ Hto).
    destruct (head (sql_select_memory _ st)); reflexivity.
Qed.

(** C6.  A call of the [create-memory-relationship] tool whose strength lies
    outside [0, 1] or whose relationship type is not one of influences,
    depends_on, relates_to, contradicts, extends is rejected by the input
    schema: the handler does not run and the state, hence
    [memory_relationships], is unchanged. *)
Theorem create_memory_relationship_tool_validates (env : Env)
    (raw : RelationshipArgs.t) (st : State) :
  (∃ s, RelationshipArgs.strength raw = Some s ∧ (s < 0 ∨ 1 < s)%Q)
  ∨ RelationshipArgs.relationship_type raw ∉ relationship_type_enum →
  create_memory_relationship_tool env raw st = (InvalidArguments, st).
Proof.
  intros Hinvalid. unfold create_memory_relationship_tool, relationship_schema.
  case_decide as Hkind; [|reflexivity].
  destruct Hinvalid as [(s & -> & Hs)|Hnot]; [|contradiction].
  assert (strength_schema s = false) as ->; [|reflexivity].
  unfold strength_schema. apply andb_false_iff.
  destruct Hs as [Hlow|Hhigh]; [left|right];
    apply not_true_is_false; rewrite Qle_bool_iff;
    apply Qlt_not_le; assumption.
Qed.

End Relationships.

(** ** Sessions *)

Section Sessions.
Context `{JsonCodec} `{TextOps}.

(** C8.  Calling [switchProject] a second time with the same project (at
    any later clock reading) returns the same result as the first call and
    leaves, for every user, the same [current_project] in [user_sessions];
    the other tables are unchanged.  Each of the two calls ends in "Error
    switching project", its [INSERT OR REPLACE] having two placeholders
    and one binding, and writes nothing. *)
Theorem switchProject_idempotent (env1 env2 : Env)
    (args : SwitchProjectArgs.t) (st : State) :
  let once := switchProject env1 args st in
  let twice := switchProject env2 args once.2 in
  twice.1 = once.1
  ∧ (∀ user : string,
       Session.current_project <$> user_sessions twice.2 !! user
       = Session.current_project <$> user_sessions once.2 !! user)
  ∧ memories twice.2 = memories once.2
  ∧ memory_relationships twice.2 = memory_relationships once.2
  ∧ vectors twice.2 = vectors once.2
  ∧ ∃ msg, once = (ErrorSwitchingProject msg, st).
Proof.
  cbv zeta. rewrite !switchProject_run. repeat split. by eexists.
Qed.

End Sessions.

(** ** The sort of the platform *)

Section SortAny.
Context {A : Type} (compareFn : A → A → Q).

Lemma sort_insert_Permutation (x : A) (l : list A) :
  sort_insert compareFn x l ≡ₚ x :: l.
Proof.
  induction l as [|y l IH]; cbn [sort_insert]; [done|].
  destruct (Qle_bool (compareFn x y) 0); [done|].
  rewrite IH. apply Permutation_swap.
Qed.

Lemma sort_Permutation (l : list A) : sort compareFn l ≡ₚ l.
Proof.
  induction l as [|x l IH]; [done|].
  cbn [sort foldr]. rewrite sort_insert_Permutation.
  fold (sort compareFn l). by rewrite IH.
Qed.

End SortAny.

(** ** Searching *)

Section Search.
Context `{JsonCodec} `{TextOps}.

(** The paths through [searchMemories]. *)
Lemma searchMemories_paths (env : Env) (args : SearchMemoriesArgs.t)
    (st : State) :
  let query := SearchMemoriesArgs.query args in
  let limit := default 10%Z (SearchMemoriesArgs.limit args) in
  searchMemories env args st =
  match AI_run env query with
  | Throw msg => (ErrorSearchingMemories msg, st)
  | Ok queryEmbedding =>
  match data_0 queryEmbedding with
  | Throw msg => (ErrorSearchingMemories msg, st)
  | Ok vector =>
      match VECTORIZE_query env vector
              (vectorFilter getUserId (SearchMemoriesArgs.project args)
                 (SearchMemoriesArgs.type args)) (limit * 2) with
      | Throw msg => (ErrorSearchingMemories msg, st)
      | Ok matches =>
          if decide (length matches = 0) then (NoMemoriesFound query, st)
          else if decide (length matches = 1) then
            match
              mapM (enhance
                      (foldl (λ m mt,
                                <[Vector.memoryId mt := Vector.score mt]> m)
                         ∅ matches))
                (selected_rows
                   (default false
                      (SearchMemoriesArgs.include_relationships args))
                   (Vector.memoryId <$> matches) st)
            with
            | Throw msg => (ErrorSearchingMemories msg, st)
            | Ok enhanced =>
                (FoundMemories query (slice0 limit (sort by_score enhanced)),
                 st)
            end
          else (ErrorSearchingMemories wrong_number_of_bindings, st)
      end
  end
  end.
Proof.
  cbv zeta. unfold searchMemories, try_catch, mbind, handler_bind, eval.
  destruct (AI_run env (SearchMemoriesArgs.query args)) as [reply|];
    [|reflexivity].
  destruct (data_0 reply); [|reflexivity].
  destruct (VECTORIZE_query env _ _ _) as [matches|]; [|reflexivity].
  case_decide; [reflexivity|].
  rewrite sql_select_memories_run, length_fmap.
  case_decide; [|reflexivity].
  destruct (mapM _ _); reflexivity.
Qed.

Lemma slice0_prefix {A} (n : Z) (l : list A) : slice0 n l `prefix_of` l.
Proof. unfold slice0. destruct (0 <=? n)%Z; apply prefix_take. Qed.

Lemma slice0_length {A} (n : Z) (l : list A) :
  (0 ≤ n)%Z → (Z.of_nat (length (slice0 n l)) ≤ n)%Z.
Proof.
  intros Hn. unfold slice0. rewrite (proj2 (Z.leb_le 0 n) Hn).
  rewrite length_take. lia.
Qed.

Lemma enhance_memory (scoreMap : gmap string Q) (r : SelectedRow)
    (e : Enhanced.row) :
  enhance scoreMap r = Ok e → Enhanced.memory e = r.1.
Proof.
  unfold enhance. destruct (JSON_parse _); [|discriminate].
  intros [= <-]. reflexivity.
Qed.

(** [results.map] keeps the rows and their order. *)
Lemma mapM_enhance_memory (scoreMap : gmap string Q)
    (results : list SelectedRow) (enhanced : list Enhanced.row) :
  mapM (enhance scoreMap) results = Ok enhanced →
  Enhanced.memory <$> enhanced = fst <$> results.
Proof.
  revert enhanced. induction results as [|r results IH]; intros enhanced.
  - intros [= <-]. reflexivity.
  - cbn [mapM].
    destruct (enhance scoreMap r) as [e|] eqn:He; [|discriminate].
    cbn [mbind outcome_bind].
    destruct (mapM (enhance scoreMap) results) as [rest|]; [|discriminate].
    intros [= <-]. rewrite !fmap_cons.
    f_equal; [exact (enhance_memory _ _ _ He)|]. apply IH. reflexivity.
Qed.

Lemma selected_rows_memories (include_relationships : bool)
    (memoryIds : list string) (st : State) :
  fst <$> selected_rows include_relationships memoryIds st
  = filter (λ m, Memory.id m ∈ memoryIds) (memories st).
Proof.
  unfold selected_rows. rewrite <- list_fmap_compose.
  apply list_fmap_id.
Qed.

(** Under the primary key, one id selects at most one row. *)
Lemma filter_one_id (x : string) (l : list Memory.row) :
  NoDup (Memory.id <$> l) →
  (length (filter (λ m, Memory.id m ∈ [x]) l) ≤ 1)%nat.
Proof.
  intros Hnodup.
  assert (NoDup (Memory.id <$> filter (λ m, Memory.id m ∈ [x]) l)) as Hsub.
  { eapply sublist_NoDup; [exact Hnodup|].
    apply fmap_sublist, sublist_filter. }
  assert (∀ m, m ∈ filter (λ m, Memory.id m ∈ [x]) l → Memory.id m = x)
    as Hall.
  { intros m [Hm _]%list_elem_of_filter.
    by apply list_elem_of_singleton in Hm. }
  destruct (filter _ l) as [|a [|b k]]; cbn [length]; [lia|lia|].
  exfalso. rewrite !fmap_cons in Hsub.
  apply NoDup_cons in Hsub as [Hnotin _]. apply Hnotin.
  rewrite (Hall a), (Hall b) by (repeat constructor). left.
Qed.

(** The rows of a search that answers "Found": the rows of the one id the
    index named, in the order of the sort, cut at the limit. *)
Lemma searchMemories_found (env : Env) (args : SearchMemoriesArgs.t)
    (st st' : State) (query : string) (rows : list Enhanced.row) :
  searchMemories env args st = (FoundMemories query rows, st') →
  ∃ (mt : Vector.match_) (enhanced : list Enhanced.row),
    Enhanced.memory <$> enhanced
    = filter (λ m, Memory.id m ∈ [Vector.memoryId mt]) (memories st)
    ∧ rows = slice0 (default 10%Z (SearchMemoriesArgs.limit args))
               (sort by_score enhanced).
Proof.
  pose proof (searchMemories_paths env args st) as Hpaths.
  cbv zeta in Hpaths. rewrite Hpaths. clear Hpaths.
  destruct (AI_run env _) as [reply|]; [|discriminate].
  destruct (data_0 reply); [|discriminate].
  destruct (VECTORIZE_query env _ _ _) as [matches|]; [|discriminate].
  case_decide; [discriminate|]. case_decide as Hone; [|discriminate].
  destruct (mapM _ _) as [enhanced|] eqn:Henh; [|discriminate].
  intros [= _ <- _].
  destruct matches as [|mt [|mt' matches]]; try discriminate Hone.
  exists mt, enhanced. split; [|reflexivity].
  rewrite (mapM_enhance_memory _ _ _ Henh). apply selected_rows_memories.
Qed.


End Search.

(** * Concrete runs of the properties *)

Lemma two_memories_ids :
  Memory.id <$> memories Scenario.two_memories = ["m-1"; "m-2"].
Proof. reflexivity. Qed.

Lemma two_memories_key : NoDup (Memory.id <$> memories Scenario.two_memories).
Proof. rewrite two_memories_ids. compute_done. Qed.





(** C4.  The index returns one candidate whose id is not in [memories]: the
    search answers "Found 0 memories", an empty success, where the claim
    asks for "No memories found". *)
Theorem searchMemories_reports_zero_found :
  searchMemories (H := FlatJson.codec)
    (Scenario.env "q-1" 300 [Scenario.candidate "missing-1" (1 # 2)])
    (Scenario.search "typescript") Scenario.two_memories
  = (FoundMemories "typescript" [], Scenario.two_memories)
  ∧ FoundMemories "typescript" [] ≠ NoMemoriesFound "typescript".
Proof. split; [vm_compute; reflexivity|discriminate]. Qed.

Lemma createMemoryRelationship_not_found_witness :
  let args := Scenario.relate "m-1" "missing-1" "relates_to" (Some (4 # 5)) in
  (RelationshipArgs.from_memory_id args
     ∉ Memory.id <$> memories Scenario.two_memories
   ∨ RelationshipArgs.to_memory_id args
     ∉ Memory.id <$> memories Scenario.two_memories)
  ∧ createMemoryRelationship (Scenario.env "r-1" 300 []) args
      Scenario.two_memories
    = (MemoriesNotFound, Scenario.two_memories).
Proof.
  cbv zeta.
  assert ("missing-1" ∉ Memory.id <$> memories Scenario.two_memories)
    as Hmissing.
  { rewrite two_memories_ids. intros Hin.
    repeat (apply elem_of_cons in Hin as [Heq|Hin]; [discriminate Heq|]).
    by apply elem_of_nil in Hin. }
  split; [right; exact Hmissing|].
  apply (createMemoryRelationship_not_found (Scenario.env "r-1" 300 [])
           (Scenario.relate "m-1" "missing-1" "relates_to" (Some (4 # 5)))
           Scenario.two_memories).
  right. exact Hmissing.
Defined.

Lemma create_memory_relationship_tool_validates_witness :
  let raw := Scenario.relate "m-1" "m-2" "relates_to" (Some (3 # 2)) in
  ((∃ s, RelationshipArgs.strength raw = Some s ∧ (s < 0 ∨ 1 < s)%Q)
   ∨ RelationshipArgs.relationship_type raw ∉ relationship_type_enum)
  ∧ create_memory_relationship_tool (H := FlatJson.codec)
      (Scenario.env "r-1" 300 []) raw Scenario.two_memories
    = (InvalidArguments, Scenario.two_memories).
Proof.
  cbv zeta.
  assert (∃ s, RelationshipArgs.strength
                 (Scenario.relate "m-1" "m-2" "relates_to" (Some (3 # 2)))
               = Some s ∧ (s < 0 ∨ 1 < s)%Q) as Hstrength.
  { exists (3 # 2). split; [reflexivity|]. right. reflexivity. }
  split; [left; exact Hstrength|].
  apply (create_memory_relationship_tool_validates (H := FlatJson.codec)).
  left. exact Hstrength.
Defined.

(** C7.  A call of the [add-memory] tool with every argument given, both
    services answering: the [INSERT] throws, no id is reported, and no
    record can be read back under the id drawn for the call. *)
Theorem add_memory_tool_stores_no_record :
  let env := Scenario.env "m-1" 100 [] in
  let run := add_memory_tool (H := FlatJson.codec) env Scenario.add_full
               Scenario.empty in
  (∃ msg, run = (ErrorStoringMemory msg, Scenario.empty))
  ∧ getMemory (H := FlatJson.codec) "m-1" run.2 = Ok None.
Proof.
  cbv zeta. unfold add_memory_tool.
  rewrite !(addMemory_run (H := FlatJson.codec)).
  split; [by eexists|reflexivity].
Qed.

(** C8: a switch to "dev", served twice. *)
Lemma switchProject_idempotent_witness :
  let args := {| SwitchProjectArgs.project := "dev" |} in
  let once := switchProject (Scenario.env "s-1" 220 []) args
                Scenario.two_memories in
  let twice := switchProject (Scenario.env "s-2" 230 []) args once.2 in
  twice.1 = once.1
  ∧ (∀ user : string,
       Session.current_project <$> user_sessions twice.2 !! user
       = Session.current_project <$> user_sessions once.2 !! user)
  ∧ memories twice.2 = memories once.2
  ∧ memory_relationships twice.2 = memory_relationships once.2
  ∧ vectors twice.2 = vectors once.2
  ∧ ∃ msg, once = (ErrorSwitchingProject msg, Scenario.two_memories).
Proof.
  exact (switchProject_idempotent (Scenario.env "s-1" 220 [])
           (Scenario.env "s-2" 230 [])
           {| SwitchProjectArgs.project := "dev" |} Scenario.two_memories).
Defined.

(** C9.  A call without a project, served once with no session and once
    with a session on project "dev": both runs answer "Error storing
    memory" and leave [memories] empty, so no memory is stored under the
    project "default", or under any other. *)
Theorem addMemory_stores_nothing_under_default :
  let env := Scenario.env "m-1" 100 [] in
  let args := Scenario.add "User prefers TypeScript" in
  let session := {| Session.current_project := "dev";
                    Session.last_active := 50 |} in
  let st := set_user_sessions {["mem0-mcp-user" := session]} Scenario.empty in
  AddMemoryArgs.project args = None
  ∧ Memory.project (memory_row (H := FlatJson.codec) env args) = "default"
  ∧ ∃ msg,
      addMemory (H := FlatJson.codec) env args Scenario.empty
      = (ErrorStoringMemory msg, Scenario.empty)
      ∧ addMemory (H := FlatJson.codec) env args st
        = (ErrorStoringMemory msg, st)
      ∧ memories (addMemory (H := FlatJson.codec) env args st).2 = [].
Proof.
  cbv zeta. rewrite !(addMemory_run (H := FlatJson.codec)).
  split; [reflexivity|]. split; [reflexivity|].
  eexists. repeat split.
Qed.


(** * Further properties of the handlers *)

Section Lookups.

Lemma select_found (x : string) (m : Memory.row) (st : State) :
  head (sql_select_memory x st) = Some m → m ∈ memories st ∧ Memory.id m = x.
Proof.
  unfold sql_select_memory. intros Hhead.
  assert (m ∈ filter (λ r, Memory.id r = x) (memories st)) as Hin.
  { destruct (filter _ (memories st)); [discriminate|].
    injection Hhead as ->. left. }
  apply list_elem_of_filter in Hin. tauto.
Qed.

Lemma select_known (x : string) (st : State) :
  x ∈ Memory.id <$> memories st → ∃ m, head (sql_select_memory x st) = Some m.
Proof.
  intros (m & -> & Hm)%list_elem_of_fmap. unfold sql_select_memory.
  assert (m ∈ filter (λ r, Memory.id r = Memory.id m) (memories st)) as Hin
    by (apply list_elem_of_filter; auto).
  destruct (filter _ (memories st)) as [|m' l]; [by apply elem_of_nil in Hin|].
  by exists m'.
Qed.

(** With unique ids, the row found under an id is the row stored there. *)
Lemma select_unique (m : Memory.row) (st : State) :
  NoDup (Memory.id <$> memories st) → m ∈ memories st →
  head (sql_select_memory (Memory.id m) st) = Some m.
Proof.
  unfold sql_select_memory.
  induction (memories st) as [|m' l IH]; intros Hnodup Hin.
  - by apply elem_of_nil in Hin.
  - rewrite fmap_cons in Hnodup. apply NoDup_cons in Hnodup as [Hm' Hl].
    apply elem_of_cons in Hin as [->|Hin].
    + by rewrite filter_cons_True.
    + rewrite filter_cons_False; [by apply IH|].
      intros Heq. apply Hm'. rewrite Heq. by apply list_elem_of_fmap_2.
Qed.

End Lookups.

(** ** Sequences of calls

    Each of the three statements that write has more than one placeholder
    and is given one binding: it throws before it writes.  The properties
    of the states that calls reach rest on that. *)

Section Sequences.
Context `{JsonCodec} `{TextOps}.

(** X1.  No sequence of tool calls removes, reorders or rewrites a stored
    memory or relationship: both tables only ever grow at their end. *)
Theorem calls_append_only (cs : list Call) (st : State) :
  memories st `prefix_of` memories (calls cs st)
  ∧ memory_relationships st `prefix_of` memory_relationships (calls cs st).
Proof. by rewrite calls_unchanged. Qed.

(** X2.  A memory that a store with distinct ids holds stays retrievable:
    after any further calls the lookup by its id still finds the same row,
    with the content, project, type and metadata it was stored with. *)
Theorem stored_memory_stays (st : State) (before after : list Call)
    (m : Memory.row) :
  NoDup (Memory.id <$> memories st) →
  m ∈ memories (calls before st) →
  head (sql_select_memory (Memory.id m) (calls after (calls before st)))
  = Some m.
Proof.
  rewrite !calls_unchanged. apply select_unique.
Qed.







(** X29.  No sequence of calls of the five tools changes a table or the
    index: whatever the services answer, the state after the calls is the
    state before them.  A new object stays empty. *)
Theorem tool_calls_change_nothing (cs : list Call) (st : State) :
  calls cs st = st
  ∧ memories (calls cs created) = []
  ∧ memory_relationships (calls cs created) = []
  ∧ user_sessions (calls cs created) = ∅
  ∧ vectors (calls cs created) = ∅.
Proof. rewrite !calls_unchanged. repeat split. Qed.

End Sequences.

(** ** Search results *)

Section SearchResults.
Context `{JsonCodec} `{TextOps}.

Lemma mapM_enhance_inv (scoreMap : gmap string Q)
    (results : list SelectedRow) (enhanced : list Enhanced.row) :
  mapM (enhance scoreMap) results = Ok enhanced →
  Forall2 (λ r e, enhance scoreMap r = Ok e) results enhanced.
Proof.
  revert enhanced. induction results as [|r results IH]; intros enhanced.
  - intros [= <-]. constructor.
  - cbn [mapM].
    destruct (enhance scoreMap r) as [e|] eqn:He; [|discriminate].
    cbn [mbind outcome_bind].
    destruct (mapM (enhance scoreMap) results) as [rest|]; [|discriminate].
    intros [= <-]. constructor; [assumption|]. by apply IH.
Qed.

Lemma mapM_enhance_Throw (scoreMap : gmap string Q)
    (results : list SelectedRow) (r : SelectedRow) (msg : string) :
  r ∈ results → enhance scoreMap r = Throw msg →
  ∃ msg', mapM (enhance scoreMap) results = Throw msg'.
Proof.
  intros Hin Hr. induction results as [|r' results IH].
  - by apply elem_of_nil in Hin.
  - cbn [mapM]. destruct (enhance scoreMap r') as [e|msg'] eqn:He.
    + apply elem_of_cons in Hin as [->|Hin]; [congruence|].
      destruct (IH Hin) as [msg' ->]. by exists msg'.
    + by exists msg'.
Qed.

Lemma scoreMap_lookup (matches : list Vector.match_) (acc : gmap string Q)
    (k : string) (s : Q) :
  foldl (λ m mt, <[Vector.memoryId mt := Vector.score mt]> m) acc matches
    !! k = Some s →
  acc !! k = Some s
  ∨ ∃ mt, mt ∈ matches ∧ Vector.memoryId mt = k ∧ Vector.score mt = s.
Proof.
  revert acc. induction matches as [|mt matches IH]; intros acc; [by left|].
  cbn [foldl]. intros [Hacc|(mt' & Hin & Hk & Hs)]%IH.
  - rewrite lookup_insert in Hacc. case_decide as Hk.
    + injection Hacc as <-. right. exists mt. split; [left|done].
    + by left.
  - right. exists mt'. split; [by right|done].
Qed.

Lemma scoreMap_is_Some (matches : list Vector.match_) (acc : gmap string Q)
    (k : string) :
  is_Some (acc !! k) ∨ k ∈ Vector.memoryId <$> matches →
  is_Some (foldl (λ m mt, <[Vector.memoryId mt := Vector.score mt]> m)
             acc matches !! k).
Proof.
  revert acc. induction matches as [|mt matches IH]; intros acc.
  - intros [Hacc|Hin]; [done|]. by apply elem_of_nil in Hin.
  - cbn [foldl]. intros Hk. apply IH.
    destruct (decide (Vector.memoryId mt = k)) as [<-|Hne].
    + left. rewrite lookup_insert_eq. by eexists.
    + rewrite lookup_insert_ne by done.
      destruct Hk as [Hacc|Hin]; [by left|right].
      rewrite fmap_cons in Hin.
      apply elem_of_cons in Hin as [Heq|Hin]; [congruence|done].
Qed.
(** X9.  Whatever [searchMemories] returns, it leaves the state as it
    found it, and its result depends on the [memories] and
    [memory_relationships] tables only: neither the session table nor the
    recorded index entries change it. *)
Theorem searchMemories_reads_tables_only (env : Env)
    (args : SearchMemoriesArgs.t) (st : State) :
  (searchMemories env args st).2 = st
  ∧ ∀ (sessions : gmap string Session.row)
      (entries : gmap string Vector.entry),
      (searchMemories env args
         (set_vectors entries (set_user_sessions sessions st))).1
      = (searchMemories env args st).1.
Proof.
  split; [apply searchMemories_state|]. intros sessions entries.
  pose proof (searchMemories_paths env args st) as Hst.
  pose proof (searchMemories_paths env args
                (set_vectors entries (set_user_sessions sessions st))) as Hst'.
  cbv zeta in Hst, Hst'. rewrite Hst, Hst'.
  destruct (AI_run env _) as [reply|]; [|reflexivity].
  destruct (data_0 reply); [|reflexivity].
  destruct (VECTORIZE_query env _ _ _); [|reflexivity].
  case_decide; [reflexivity|]. case_decide; [|reflexivity].
  unfold selected_rows.
  cbn [memories memory_relationships set_vectors set_user_sessions].
  destruct (mapM _ _); reflexivity.
Qed.

(** X10.  The search answers "No memories found" exactly when the embedding
    call succeeds, its reply has [data], and the index returns no match at
    all; what is stored plays no part in it. *)
Theorem searchMemories_no_memories_iff (env : Env)
    (args : SearchMemoriesArgs.t) (st : State) :
  (searchMemories env args st).1
  = NoMemoriesFound (SearchMemoriesArgs.query args)
  ↔ ∃ reply queryEmbedding,
      AI_run env (SearchMemoriesArgs.query args) = Ok reply
      ∧ data_0 reply = Ok queryEmbedding
      ∧ VECTORIZE_query env queryEmbedding
          (vectorFilter getUserId (SearchMemoriesArgs.project args)
             (SearchMemoriesArgs.type args))
          (default 10 (SearchMemoriesArgs.limit args) * 2)%Z
        = Ok [].
Proof.
  pose proof (searchMemories_paths env args st) as Hpaths.
  cbv zeta in Hpaths. rewrite Hpaths. clear Hpaths. split.
  - destruct (AI_run env _) as [reply|]; [|discriminate].
    destruct (data_0 reply) as [queryEmbedding|] eqn:Hdata; [|discriminate].
    exists reply, queryEmbedding. split; [reflexivity|].
    split; [exact Hdata|].
    destruct (VECTORIZE_query env _ _ _) as [matches|]; [|discriminate].
    case_decide as Hlen.
    + by apply nil_length_inv in Hlen as ->.
    + case_decide; [|discriminate]. destruct (mapM _ _); discriminate.
  - intros (reply & queryEmbedding & -> & -> & ->). reflexivity.
Qed.

(** X11.  Every memory the search returns is a stored row whose id the
    index named, and the score it carries is the score of an index match
    with that id. *)
Theorem searchMemories_results_resolved (env : Env)
    (args : SearchMemoriesArgs.t) (st st' : State) (query : string)
    (rows : list Enhanced.row) :
  searchMemories env args st = (FoundMemories query rows, st') →
  ∃ reply queryEmbedding matches,
    AI_run env (SearchMemoriesArgs.query args) = Ok reply
    ∧ data_0 reply = Ok queryEmbedding
    ∧ VECTORIZE_query env queryEmbedding
        (vectorFilter getUserId (SearchMemoriesArgs.project args)
           (SearchMemoriesArgs.type args))
        (default 10 (SearchMemoriesArgs.limit args) * 2)%Z
      = Ok matches
    ∧ Forall
        (λ e, Enhanced.memory e ∈ memories st
              ∧ ∃ mt, mt ∈ matches
                      ∧ Vector.memoryId mt = Memory.id (Enhanced.memory e)
                      ∧ (Enhanced.semantic_score e == Vector.score mt)%Q)
        rows.
Proof.
  pose proof (searchMemories_paths env args st) as Hpaths.
  cbv zeta in Hpaths. rewrite Hpaths. clear Hpaths.
  destruct (AI_run env _) as [reply|]; [|discriminate].
  destruct (data_0 reply) as [queryEmbedding|] eqn:Hdata; [|discriminate].
  destruct (VECTORIZE_query env _ _ _) as [matches|] eqn:Hquery;
    [|discriminate].
  case_decide; [discriminate|]. case_decide; [|discriminate].
  destruct (mapM _ _) as [enhanced|] eqn:Henh; [|discriminate].
  intros [= _ <- _]. exists reply, queryEmbedding, matches.
  split; [reflexivity|]. split; [exact Hdata|]. split; [exact Hquery|].
  apply Forall_forall. intros e He.
  assert (e ∈ enhanced) as Hin.
  { destruct (slice0_prefix (default 10%Z (SearchMemoriesArgs.limit args))
                (sort by_score enhanced)) as [k Hk].
    rewrite <- (sort_Permutation by_score enhanced), Hk.
    apply elem_of_app. by left. }
  apply mapM_enhance_inv in Henh.
  destruct (proj1 (list_elem_of_lookup _ _) Hin) as [i Hi].
  destruct (Forall2_lookup_r _ _ _ _ _ Henh Hi) as (r & Hr & Henhance).
  apply list_elem_of_lookup_2 in Hr.
  unfold selected_rows in Hr.
  apply list_elem_of_fmap in Hr as (m & -> & Hm).
  apply list_elem_of_filter in Hm as [Hid Hm].
  unfold enhance in Henhance. cbn [fst snd] in Henhance.
  destruct (JSON_parse _); [|discriminate].
  injection Henhance as <-. cbn [Enhanced.memory Enhanced.semantic_score].
  split; [assumption|].
  destruct (scoreMap_is_Some matches ∅ (Memory.id m) (or_intror Hid))
    as [s Hs].
  unfold score_or_zero. rewrite Hs.
  apply scoreMap_lookup in Hs as [Hempty|(mt & Hmt & Hk & <-)];
    [by rewrite lookup_empty in Hempty|].
  exists mt. split; [assumption|]. split; [assumption|].
  destruct (Qeq_bool (Vector.score mt) 0) eqn:Hzero; [|reflexivity].
  apply Qeq_bool_iff in Hzero. by rewrite Hzero.
Qed.

End SearchResults.

Section SearchEdges.
Context `{JsonCodec} `{TextOps}.

Lemma mapM_enhance_Throw_inv (scoreMap : gmap string Q)
    (results : list SelectedRow) (msg : string) :
  mapM (enhance scoreMap) results = Throw msg →
  ∃ r, r ∈ results ∧ enhance scoreMap r = Throw msg.
Proof.
  induction results as [|r results IH]; [discriminate|].
  cbn [mapM]. destruct (enhance scoreMap r) as [e|msg'] eqn:He.
  - cbn [mbind outcome_bind].
    destruct (mapM (enhance scoreMap) results) as [rest|msg'];
      [discriminate|].
    intros [= <-]. destruct (IH eq_refl) as (r' & Hin & Hr').
    exists r'. split; [by right|done].
  - intros [= <-]. exists r. split; [left|done].
Qed.

Lemma enhance_Throw (scoreMap : gmap string Q) (r : SelectedRow)
    (msg : string) :
  enhance scoreMap r = Throw msg
  ↔ JSON_parse (or_string (Memory.metadata r.1) "{}") = Throw msg.
Proof.
  unfold enhance, mbind, outcome_bind, mret, outcome_ret.
  destruct (JSON_parse _); split; congruence.
Qed.

Lemma selected_rows_elem (include_relationships : bool)
    (memoryIds : list string) (st : State) (m : Memory.row) :
  m ∈ memories st → Memory.id m ∈ memoryIds →
  ∃ r, r ∈ selected_rows include_relationships memoryIds st ∧ r.1 = m.
Proof.
  intros Hm Hid. unfold selected_rows. eexists. split.
  - apply list_elem_of_fmap_2. apply list_elem_of_filter. split; eassumption.
  - reflexivity.
Qed.

(** X12.  The search answers "Error searching memories" in exactly five
    cases: the embedding call throws; its reply has no [data]; the index
    query throws; the index names two or more matches, so that the query
    on [memories] has more placeholders than its one binding; or the
    [metadata] column of a stored row that the index named is not JSON
    text. *)
Theorem searchMemories_error_iff (env : Env) (args : SearchMemoriesArgs.t)
    (st : State) :
  (∃ msg, (searchMemories env args st).1 = ErrorSearchingMemories msg)
  ↔ (∃ msg, AI_run env (SearchMemoriesArgs.query args) = Throw msg)
    ∨ ∃ reply,
        AI_run env (SearchMemoriesArgs.query args) = Ok reply
        ∧ ((∃ msg, data_0 reply = Throw msg)
           ∨ ∃ queryEmbedding,
               data_0 reply = Ok queryEmbedding
               ∧ ((∃ msg,
                     VECTORIZE_query env queryEmbedding
                       (vectorFilter getUserId
                          (SearchMemoriesArgs.project args)
                          (SearchMemoriesArgs.type args))
                       (default 10 (SearchMemoriesArgs.limit args) * 2)%Z
                     = Throw msg)
                  ∨ ∃ matches,
                      VECTORIZE_query env queryEmbedding
                        (vectorFilter getUserId
                           (SearchMemoriesArgs.project args)
                           (SearchMemoriesArgs.type args))
                        (default 10 (SearchMemoriesArgs.limit args) * 2)%Z
                      = Ok matches
                      ∧ ((2 ≤ length matches)%nat
                         ∨ ∃ m msg,
                             m ∈ memories st
                             ∧ Memory.id m ∈ Vector.memoryId <$> matches
                             ∧ JSON_parse
                                 (or_string (Memory.metadata m) "{}")
                               = Throw msg))).
Proof.
  pose proof (searchMemories_paths env args st) as Hpaths.
  cbv zeta in Hpaths. rewrite Hpaths. clear Hpaths.
  destruct (AI_run env _) as [reply|msg0].
  2:{ split; [intros _; left; by exists msg0|intros _; by exists msg0]. }
  destruct (data_0 reply) as [queryEmbedding|msg0] eqn:Hdata.
  2:{ split; [intros _|intros _; by exists msg0].
      right. exists reply. split; [done|]. left. by exists msg0. }
  destruct (VECTORIZE_query env _ _ _) as [matches|msg0] eqn:Hquery.
  2:{ split; [intros _|intros _; by exists msg0].
      right. exists reply. split; [done|]. right.
      exists queryEmbedding. split; [done|]. left. by exists msg0. }
  split.
  - intros [msg Hmsg]. right. exists reply. split; [done|]. right.
    exists queryEmbedding. split; [done|]. right.
    exists matches. split; [done|].
    case_decide as Hnone; [discriminate|].
    case_decide as Hone; [|left; lia]. right.
    destruct (mapM _ _) as [enhanced|msg'] eqn:Henh; [discriminate|].
    apply mapM_enhance_Throw_inv in Henh as (r & Hr & Hthrow).
    unfold selected_rows in Hr.
    apply list_elem_of_fmap in Hr as (m & -> & Hm).
    apply list_elem_of_filter in Hm as [Hid Hm].
    apply enhance_Throw in Hthrow. cbn [fst] in Hthrow.
    exists m, msg'. auto.
  - intros [[msg [=]]|(reply' & [= <-] & Hcase)].
    destruct Hcase as [[msg Hthrow]|(queryEmbedding' & Hdata' & Hcase)];
      [congruence|].
    rewrite Hdata in Hdata'. injection Hdata' as <-.
    destruct Hcase as [[msg Hthrow]|(matches' & Hq & Hcase)]; [congruence|].
    rewrite Hquery in Hq. injection Hq as <-.
    destruct Hcase as [Hmany|(m & msg & Hm & Hid & Hp)].
    { rewrite decide_False by lia. rewrite decide_False by lia.
      by eexists. }
    rewrite decide_False.
    2:{ destruct matches; [by apply elem_of_nil in Hid|discriminate]. }
    case_decide; [|by eexists].
    destruct (selected_rows_elem
                (default false
                   (SearchMemoriesArgs.include_relationships args))
                (Vector.memoryId <$> matches) st m Hm Hid) as (r & Hr & <-).
    apply (enhance_Throw
             (foldl (λ m mt, <[Vector.memoryId mt := Vector.score mt]> m)
                ∅ matches)) in Hp.
    destruct (mapM_enhance_Throw _ _ _ _ Hr Hp) as [msg' ->].
    by exists msg'.
Qed.

(** X13.  For a limit that is not negative, the search returns exactly as
    many memories as the limit allows of the stored rows the index named:
    the smaller of the limit and the number of those rows. *)
Theorem searchMemories_count (env : Env) (args : SearchMemoriesArgs.t)
    (st st' : State) (query : string) (rows : list Enhanced.row) :
  searchMemories env args st = (FoundMemories query rows, st') →
  (0 ≤ default 10 (SearchMemoriesArgs.limit args))%Z →
  ∃ reply queryEmbedding matches,
    AI_run env (SearchMemoriesArgs.query args) = Ok reply
    ∧ data_0 reply = Ok queryEmbedding
    ∧ VECTORIZE_query env queryEmbedding
        (vectorFilter getUserId (SearchMemoriesArgs.project args)
           (SearchMemoriesArgs.type args))
        (default 10 (SearchMemoriesArgs.limit args) * 2)%Z
      = Ok matches
    ∧ length rows
      = Z.to_nat (default 10%Z (SearchMemoriesArgs.limit args))
        `min` length (filter (λ m, Memory.id m ∈ Vector.memoryId <$> matches)
                        (memories st)).
Proof.
  pose proof (searchMemories_paths env args st) as Hpaths.
  cbv zeta in Hpaths. rewrite Hpaths. clear Hpaths.
  destruct (AI_run env _) as [reply|]; [|discriminate].
  destruct (data_0 reply) as [queryEmbedding|] eqn:Hdata; [|discriminate].
  destruct (VECTORIZE_query env _ _ _) as [matches|] eqn:Hquery;
    [|discriminate].
  case_decide; [discriminate|]. case_decide; [|discriminate].
  destruct (mapM _ _) as [enhanced|] eqn:Henh; [|discriminate].
  intros [= _ <- _] Hlimit. exists reply, queryEmbedding, matches.
  split; [reflexivity|]. split; [exact Hdata|]. split; [exact Hquery|].
  unfold slice0. rewrite (proj2 (Z.leb_le _ _) Hlimit), length_take.
  rewrite (Permutation_length (sort_Permutation by_score enhanced)).
  apply mapM_enhance_inv, Forall2_length in Henh. rewrite <- Henh.
  unfold selected_rows. by rewrite length_fmap.
Qed.


(** X28.  When relationships are requested, every returned memory carries
    the targets and the kinds of exactly its outgoing relationships, in
    storage order, and NULL for both when it has none; when they are not
    requested, no memory carries any. *)
Theorem searchMemories_relationships (env : Env)
    (args : SearchMemoriesArgs.t) (st st' : State) (query : string)
    (rows : list Enhanced.row) :
  searchMemories env args st = (FoundMemories query rows, st') →
  Forall
    (λ e,
       let outgoing :=
         filter (λ r, Relationship.from_memory_id r
                      = Memory.id (Enhanced.memory e))
           (memory_relationships st) in
       Enhanced.related e
       = if default false (SearchMemoriesArgs.include_relationships args)
         then Some (GROUP_CONCAT (Relationship.to_memory_id <$> outgoing),
                    GROUP_CONCAT (Relationship.relationship_type <$> outgoing))
         else None)
    rows.
Proof.
  pose proof (searchMemories_paths env args st) as Hpaths.
  cbv zeta in Hpaths. rewrite Hpaths. clear Hpaths.
  destruct (AI_run env _) as [reply|]; [|discriminate].
  destruct (data_0 reply); [|discriminate].
  destruct (VECTORIZE_query env _ _ _) as [matches|]; [|discriminate].
  case_decide; [discriminate|]. case_decide; [|discriminate].
  destruct (mapM _ _) as [enhanced|] eqn:Henh; [|discriminate].
  intros [= _ <- _].
  apply Forall_forall. intros e He.
  assert (e ∈ enhanced) as Hin.
  { destruct (slice0_prefix (default 10%Z (SearchMemoriesArgs.limit args))
                (sort by_score enhanced)) as [k Hk].
    rewrite <- (sort_Permutation by_score enhanced), Hk.
    apply elem_of_app. by left. }
  apply mapM_enhance_inv in Henh.
  destruct (proj1 (list_elem_of_lookup _ _) Hin) as [i Hi].
  destruct (Forall2_lookup_r _ _ _ _ _ Henh Hi) as (r & Hr & Henhance).
  apply list_elem_of_lookup_2 in Hr.
  unfold selected_rows in Hr.
  apply list_elem_of_fmap in Hr as (m & -> & Hm).
  unfold enhance in Henhance. cbn [fst snd] in Henhance.
  destruct (JSON_parse _); [|discriminate].
  injection Henhance as <-. reflexivity.
Qed.

End SearchEdges.

(** X15.  The filter sent to the index always pins [userId] to the given
    user; it constrains [project] and [type] exactly when the argument is
    a non-empty string, and nothing else. *)
Theorem vectorFilter_keys (userId : string) (project type : option string) :
  vectorFilter userId project type !! "userId" = Some (JStr userId)
  ∧ vectorFilter userId project type !! "project" = JStr <$> truthy project
  ∧ vectorFilter userId project type !! "type" = JStr <$> truthy type
  ∧ dom (vectorFilter userId project type)
    ⊆ ({["userId"; "project"; "type"]} : gset string).
Proof.
  unfold vectorFilter.
  destruct (truthy project) as [p|], (truthy type) as [t|];
    (split; [reflexivity|]); (split; [reflexivity|]);
    (split; [reflexivity|]); intros k;
    rewrite ?dom_insert, dom_singleton, !elem_of_union, !elem_of_singleton;
    tauto.
Qed.


(** ** Relationships, once more *)

Section RelationshipEdges.
Context `{JsonCodec} `{TextOps}.

(** X17.  [createMemoryRelationship] answers "Error creating relationship"
    exactly when both ends are ids of stored memories, the message being
    that of the [INSERT], which has five placeholders and one binding; it
    answers "One or both memories not found" otherwise; and it never
    stores a relationship. *)
Theorem createMemoryRelationship_error_iff (env : Env)
    (args : RelationshipArgs.t) (st : State) :
  let run := createMemoryRelationship env args st in
  let resolved :=
    RelationshipArgs.from_memory_id args ∈ Memory.id <$> memories st
    ∧ RelationshipArgs.to_memory_id args ∈ Memory.id <$> memories st in
  ((∃ msg, run.1 = ErrorCreatingRelationship msg) ↔ resolved)
  ∧ (run.1 = MemoriesNotFound ↔ ¬ resolved)
  ∧ run.2 = st.
Proof.
  cbv zeta. rewrite createMemoryRelationship_run.
  destruct (head (sql_select_memory (RelationshipArgs.from_memory_id args) st))
    as [f|] eqn:Hf.
  2:{ assert (RelationshipArgs.from_memory_id args
                ∉ Memory.id <$> memories st) as Hnot.
      { intros [m Hm]%select_known. congruence. }
      cbn [fst snd]. split; [split; [by intros [? ?]|tauto]|].
      split; [tauto|done]. }
  destruct (head (sql_select_memory (RelationshipArgs.to_memory_id args) st))
    as [t|] eqn:Ht.
  2:{ assert (RelationshipArgs.to_memory_id args
                ∉ Memory.id <$> memories st) as Hnot.
      { intros [m Hm]%select_known. congruence. }
      cbn [fst snd]. split; [split; [by intros [? ?]|tauto]|].
      split; [tauto|done]. }
  apply select_found in Hf as [Hfin <-], Ht as [Htin <-].
  assert (Memory.id f ∈ Memory.id <$> memories st
          ∧ Memory.id t ∈ Memory.id <$> memories st) as Hboth
    by (split; by apply list_elem_of_fmap_2).
  cbn [fst snd]. split; [split; [done|by eexists]|].
  split; [split; [discriminate|tauto]|done].
Qed.

(** X18.  The input schema of [create-memory-relationship] rejects a call
    exactly when its kind is not one of the five or its strength is given
    and lies outside 0..1; every other call reaches the handler, which
    never answers with the schema's rejection. *)
Theorem create_memory_relationship_tool_rejects_iff (env : Env)
    (raw : RelationshipArgs.t) (st : State) :
  (create_memory_relationship_tool env raw st).1 = InvalidArguments
  ↔ RelationshipArgs.relationship_type raw ∉ relationship_type_enum
    ∨ ∃ s, RelationshipArgs.strength raw = Some s ∧ (s < 0 ∨ 1 < s)%Q.
Proof.
  unfold create_memory_relationship_tool, relationship_schema.
  assert (∀ args, (createMemoryRelationship env args st).1 ≠ InvalidArguments)
    as Hhandler.
  { intros args. rewrite createMemoryRelationship_run.
    destruct (head _); [|discriminate].
    destruct (head _); discriminate. }
  case_decide as Hkind.
  2:{ split; [by left|done]. }
  destruct (RelationshipArgs.strength raw) as [s|].
  - unfold strength_schema.
    destruct (Qle_bool 0 s) eqn:Hlow; [destruct (Qle_bool s 1) eqn:Hhigh|];
      cbn [andb].
    + apply Qle_bool_iff in Hlow, Hhigh. split; [by intros ?%Hhandler|].
      intros [?|(s' & [= <-] & [?|?])]; [done|lra|lra].
    + split; [intros _|done]. right. exists s. split; [done|]. right.
      apply Qnot_le_lt. rewrite <- Qle_bool_iff, Hhigh. discriminate.
    + split; [intros _|done]. right. exists s. split; [done|]. left.
      apply Qnot_le_lt. rewrite <- Qle_bool_iff, Hlow. discriminate.
  - split; [by intros ?%Hhandler|].
    intros [?|(s' & [=] & _)]. done.
Qed.

End RelationshipEdges.

(** ** Sessions, once more *)

Section SessionEdges.
Context `{JsonCodec} `{TextOps}.

(** X19.  [switchProject] answers "Error switching project" for every
    project and in every state, its [INSERT OR REPLACE] having two
    placeholders and one binding, and writes nothing; after any sequence
    of calls a new object has no session, and no sequence of calls changes
    the session a store holds. *)
Theorem switchProject_never_switches (env : Env)
    (args : SwitchProjectArgs.t) (st : State) (cs : list Call) :
  (∃ msg, switchProject env args st = (ErrorSwitchingProject msg, st))
  ∧ user_sessions (calls (cs ++ [switch_project env args]) created) = ∅
  ∧ user_sessions (calls (cs ++ [switch_project env args]) st)
    = user_sessions st.
Proof.
  rewrite !calls_unchanged, switchProject_run. repeat split. by eexists.
Qed.

End SessionEdges.

(** ** Storing a memory, once more *)

Section AddMemoryEdges.
Context `{JsonCodec} `{TextOps}.

(** X24.  [addMemory] never reports "Memory stored successfully!": every
    call answers "Error storing memory", with the message of the embedding
    call when that one throws and with the message of the [INSERT], which
    has seven placeholders and one binding, otherwise; and it leaves the
    tables and the index as they were. *)
Theorem addMemory_never_stores (env : Env) (args : AddMemoryArgs.t)
    (st : State) :
  ∃ msg,
    addMemory env args st = (ErrorStoringMemory msg, st)
    ∧ (AI_run env (AddMemoryArgs.content args) = Throw msg
       ∨ ((∃ reply, AI_run env (AddMemoryArgs.content args) = Ok reply)
          ∧ (sql_insert_memory (memory_row env args) st).1 = Throw msg)).
Proof.
  rewrite addMemory_run.
  destruct (AI_run env (AddMemoryArgs.content args)) as [reply|msg].
  - exists wrong_number_of_bindings. split; [reflexivity|]. right.
    split; [by exists reply|reflexivity].
  - exists msg. split; [reflexivity|]. by left.
Qed.

(** X25.  When the drawn id is already the id of a stored memory,
    [addMemory] answers "Error storing memory" and leaves the whole state,
    the index included, unchanged. *)
Theorem addMemory_duplicate_id (env : Env) (args : AddMemoryArgs.t)
    (st : State) (embedding : Embedding.reply) :
  AI_run env (AddMemoryArgs.content args) = Ok embedding →
  randomUUID env ∈ Memory.id <$> memories st →
  ∃ msg, addMemory env args st = (ErrorStoringMemory msg, st).
Proof.
  intros Hai Htaken. rewrite addMemory_run. by eexists.
Qed.


(** X26.  Unless the caller's metadata names "userId", "project" or "type",
    the index entry of a memory satisfies the filter that a search for its
    own project and type, or for any project and type, sends to the
    index. *)
Theorem vector_entry_matches_filter (env : Env) (args : AddMemoryArgs.t)
    (embedding : option (list Q)) (project type : option string) :
  default ∅ (AddMemoryArgs.metadata args) !! "userId" = None →
  default ∅ (AddMemoryArgs.metadata args) !! "project" = None →
  default ∅ (AddMemoryArgs.metadata args) !! "type" = None →
  truthy project = None
  ∨ truthy project = Some (default "default" (AddMemoryArgs.project args)) →
  truthy type = None
  ∨ truthy type = Some (default "general" (AddMemoryArgs.type args)) →
  vectorFilter getUserId project type
  ⊆ Vector.metadata (vector_entry env args embedding).
Proof.
  intros HuserId Hproject Htype Hp Ht.
  cbn [Vector.metadata vector_entry]. unfold vector_metadata, spread.
  set (md := default ∅ (AddMemoryArgs.metadata args)) in *.
  apply map_subseteq_spec. intros k v Hk.
  assert (k = "userId" ∨ k = "project" ∨ k = "type") as Hkey.
  { apply elem_of_dom_2 in Hk. revert Hk. unfold vectorFilter.
    destruct (truthy project), (truthy type);
      rewrite ?dom_insert, dom_singleton, ?elem_of_union, !elem_of_singleton;
      tauto. }
  unfold vectorFilter in Hk.
  destruct Hkey as [-> | [-> | ->]].
  - apply lookup_union_Some_raw. right. split; [exact HuserId|].
    destruct (truthy project), (truthy type);
      rewrite ?lookup_insert_ne, lookup_singleton_eq in Hk by done;
      injection Hk as <-; reflexivity.
  - apply lookup_union_Some_raw. right. split; [exact Hproject|].
    destruct Hp as [Hp|Hp]; rewrite Hp in Hk;
      destruct (truthy type);
      rewrite ?lookup_insert_ne, ?lookup_insert_eq, ?lookup_singleton_ne in Hk
        by done;
      try discriminate; injection Hk as <-; reflexivity.
  - apply lookup_union_Some_raw. right. split; [exact Htype|].
    destruct Ht as [Ht|Ht]; rewrite Ht in Hk;
      destruct (truthy project);
      rewrite ?lookup_insert_eq, ?lookup_insert_ne, ?lookup_singleton_ne in Hk
        by done;
      try discriminate; injection Hk as <-; reflexivity.
Qed.

End AddMemoryEdges.

(** ** Statistics *)

Section Statistics.
Context `{TextOps}.

Lemma remove_dups_length_le (l : list string) :
  (length (remove_dups l) ≤ length l)%nat.
Proof.
  induction l as [|x l IH]; cbn [remove_dups length]; [done|].
  destruct (decide_rel elem_of x l); cbn [length]; lia.
Qed.

(** X20.  [getMemoryStats] never writes.  Called with a project that is a
    non-empty string it answers "Error getting stats", its query having
    two placeholders and one binding.  Called without one, it reports as
    total the number of stored memories of the user; the numbers of
    distinct types and of distinct projects never exceed the total; and
    when there is no memory, every figure is 0 (the average of no rows
    rounds to 0) and no day is listed. *)
Theorem getMemoryStats_counts (env : Env) (args : StatsArgs.t) (st : State) :
  match truthy (StatsArgs.project args) with
  | Some _ => ∃ msg, getMemoryStats env args st = (ErrorGettingStats msg, st)
  | None =>
      ∃ total types projects average recent,
        getMemoryStats env args st
        = (MemoryStatistics total types projects average recent, st)
        ∧ total = length (filter (λ m, Memory.user_id m = getUserId)
                            (memories st))
        ∧ (types ≤ total)%nat
        ∧ (projects ≤ total)%nat
        ∧ (total = 0 →
           types = 0 ∧ projects = 0 ∧ average = 0%Z ∧ recent = [])
  end.
Proof.
  pose proof (getMemoryStats_run env args st) as Hrun.
  destruct (truthy (StatsArgs.project args)) eqn:Hproject; [by eexists|].
  cbv zeta in Hrun.
  assert (filter (whereClause getUserId (StatsArgs.project args)) (memories st)
          = filter (λ m, Memory.user_id m = getUserId) (memories st))
    as Hrows.
  { apply list_filter_iff. intros m. unfold whereClause.
    rewrite Hproject. tauto. }
  rewrite Hrows in Hrun.
  set (rows := filter _ (memories st)) in *.
  eexists _, _, _, _, _. split; [exact Hrun|]. split; [reflexivity|].
  split; [|split].
  - unfold COUNT_DISTINCT.
    rewrite <- (length_fmap Memory.memory_type rows).
    apply remove_dups_length_le.
  - unfold COUNT_DISTINCT.
    rewrite <- (length_fmap Memory.project rows).
    apply remove_dups_length_le.
  - intros Hnone. apply nil_length_inv in Hnone. rewrite Hnone.
    repeat split.
Qed.

Lemma sum_list_bounds (lo hi : nat) (l : list nat) :
  Forall (λ x, (lo ≤ x ≤ hi)%nat) l →
  (lo * length l ≤ sum_list l ≤ hi * length l)%nat.
Proof.
  induction 1 as [|x l Hx _ IH]; [cbn; lia|].
  change (sum_list (x :: l)) with (x + sum_list l)%nat.
  change (length (x :: l)) with (S (length l)).
  rewrite !Nat.mul_succ_r.
  generalize dependent (sum_list l). generalize (lo * length l)%nat.
  generalize (hi * length l)%nat. lia.
Qed.

(** X21.  Called without a project, when the user has some memory,
    [getMemoryStats] reports an average content length that, after
    [Math.round], lies between the SQL [LENGTH] of the shortest and of the
    longest content of the user's memories. *)
Theorem getMemoryStats_average_bounds (env : Env) (args : StatsArgs.t)
    (st : State) (lo hi : nat) :
  truthy (StatsArgs.project args) = None →
  filter (whereClause getUserId (StatsArgs.project args)) (memories st) ≠ [] →
  Forall (λ m, (lo ≤ SQL_LENGTH (Memory.content m) ≤ hi)%nat)
    (filter (whereClause getUserId (StatsArgs.project args)) (memories st)) →
  ∃ total types projects average recent,
    getMemoryStats env args st
    = (MemoryStatistics total types projects average recent, st)
    ∧ (Z.of_nat lo ≤ average ≤ Z.of_nat hi)%Z.
Proof.
  intros Hproject Hrows Hbounds.
  pose proof (getMemoryStats_run env args st) as Hrun.
  rewrite Hproject in Hrun. cbv zeta in Hrun.
  set (rows := filter _ (memories st)) in *.
  eexists _, _, _, _, _. split; [exact Hrun|].
  set (lengths := (λ m, SQL_LENGTH (Memory.content m)) <$> rows).
  assert (Forall (λ x, (lo ≤ x ≤ hi)%nat) lengths) as Hlengths
    by (by apply Forall_fmap).
  apply sum_list_bounds in Hlengths.
  assert (0 < length lengths)%nat as Hpos.
  { unfold lengths. rewrite length_fmap.
    destruct rows; [done|cbn; lia]. }
  assert (AVG lengths
          = Some (inject_Z (Z.of_nat (sum_list lengths))
                  / inject_Z (Z.of_nat (length lengths)))%Q) as ->.
  { destruct lengths; [cbn in Hpos; lia|reflexivity]. }
  cbn [Math_round].
  set (total := inject_Z (Z.of_nat (sum_list lengths))) in *.
  set (count := inject_Z (Z.of_nat (length lengths))) in *.
  assert (0 < count)%Q as Hcount.
  { unfold count. rewrite <- (Zlt_Qlt 0). lia. }
  assert (inject_Z (Z.of_nat lo) <= total / count)%Q as Hlow.
  { apply Qle_shift_div_l; [exact Hcount|].
    unfold total, count. rewrite <- inject_Z_mult, <- Zle_Qle.
    rewrite <- Nat2Z.inj_mul. apply Nat2Z.inj_le, Hlengths. }
  assert (total / count <= inject_Z (Z.of_nat hi))%Q as Hhigh.
  { apply Qle_shift_div_r; [exact Hcount|].
    unfold total, count. rewrite <- inject_Z_mult, <- Zle_Qle.
    rewrite <- Nat2Z.inj_mul. apply Nat2Z.inj_le, Hlengths. }
  split.
  - rewrite <- (Qfloor_Z (Z.of_nat lo)). apply Qfloor_resp_le. lra.
  - apply Z.lt_succ_r. rewrite Zlt_Qlt.
    eapply Qle_lt_trans; [apply Qfloor_le|].
    unfold Z.succ. rewrite inject_Z_plus. change (inject_Z 1) with 1%Q. lra.
Qed.

#[local] Instance Z_ge_total : Total Z.ge.
Proof. intros x y. lia. Qed.

#[local] Instance Z_ge_transitive : Transitive Z.ge.
Proof. intros x y z. lia. Qed.

Lemma StronglySorted_ge_NoDup (l : list Z) :
  StronglySorted Z.ge l → NoDup l → StronglySorted Z.gt l.
Proof.
  induction 1 as [|x l Hl IH Hx]; intros Hnodup; [constructor|].
  apply NoDup_cons in Hnodup as [Hnotin Hnodup].
  constructor; [by apply IH|].
  apply Forall_forall. intros y Hy. rewrite Forall_forall in Hx.
  specialize (Hx y Hy). assert (x ≠ y) by (by intros ->). lia.
Qed.

(** The days of [sql_recent_activity]. *)
Lemma sql_recent_activity_days (rows : list Memory.row) :
  let recent := sql_recent_activity rows in
  (length recent ≤ 7)%nat
  ∧ StronglySorted (λ a b, (b.1 < a.1)%Z) recent
  ∧ Forall
      (λ day, (1 ≤ day.2)%nat
              ∧ day.2 = length (filter
                                  (λ m, DATE (Memory.created_at m) = day.1)
                                  rows))
      recent
  ∧ Forall
      (λ m, DATE (Memory.created_at m) ∈ recent.*1
            ∨ (length recent = 7
               ∧ Forall (λ day, (DATE (Memory.created_at m) < day.1)%Z)
                   recent))
      rows.
Proof.
  cbv zeta. unfold sql_recent_activity.
  set (dates := (λ m, DATE (Memory.created_at m)) <$> rows).
  set (days := merge_sort Z.ge (remove_dups dates)).
  set (count := λ d : Z,
         (d, length (filter (λ m, DATE (Memory.created_at m) = d) rows))).
  assert (∀ d, d ∈ days ↔ d ∈ dates) as Hdays.
  { intros d. unfold days.
    by rewrite merge_sort_Permutation, elem_of_remove_dups. }
  assert (StronglySorted Z.gt days) as Hsorted.
  { apply StronglySorted_ge_NoDup.
    - apply StronglySorted_merge_sort; apply _.
    - unfold days. rewrite merge_sort_Permutation. apply NoDup_remove_dups. }
  rewrite <- fmap_take.
  rewrite <- (take_drop 7 days) in Hsorted.
  split; [|split; [|split]].
  - rewrite length_fmap, length_take. lia.
  - apply (StronglySorted_fmap _ Z.gt).
    + intros x y Hxy. cbn. lia.
    + by apply StronglySorted_app_1_l in Hsorted.
  - apply Forall_fmap, Forall_forall. intros d Hd. cbn.
    split; [|reflexivity].
    assert (d ∈ dates) as Hdate.
    { apply Hdays. rewrite <- (take_drop 7 days).
      apply elem_of_app. by left. }
    apply list_elem_of_fmap in Hdate as (m & -> & Hm).
    assert (m ∈ filter (λ m', DATE (Memory.created_at m')
                              = DATE (Memory.created_at m)) rows) as Hin
      by (by apply list_elem_of_filter).
    destruct (filter _ rows); [by apply elem_of_nil in Hin|cbn; lia].
  - apply Forall_forall. intros m Hm.
    assert (DATE (Memory.created_at m) ∈ (take 7 days ++ drop 7 days)%list)
      as Hd.
    { rewrite take_drop. apply Hdays.
      by apply (list_elem_of_fmap_2 (λ m, DATE (Memory.created_at m))). }
    apply elem_of_app in Hd as [Hd|Hd].
    + left. rewrite <- list_fmap_compose.
      apply list_elem_of_fmap. by exists (DATE (Memory.created_at m)).
    + right. split.
      * rewrite length_fmap, length_take.
        destruct (decide (length days ≤ 7)%nat) as [Hshort|]; [|lia].
        rewrite drop_ge in Hd by exact Hshort. by apply elem_of_nil in Hd.
      * apply Forall_fmap, Forall_forall. intros d Hdtake. cbn.
        pose proof (StronglySorted_app_1_elem_of _ _ _ _ _ Hsorted Hdtake Hd).
        lia.
Qed.

(** X22.  Called without a project, [getMemoryStats] reports a recent
    activity that lists at most seven days, newest first and each once;
    every listed day carries the number of the user's memories created on
    it, which is at least one; and a day on which a memory of the user was
    created is missing only when seven more recent days are listed.
    Called with a project, it reports none: it answers "Error getting
    stats". *)
Theorem getMemoryStats_recent_activity (env : Env) (args : StatsArgs.t)
    (st : State) :
  match truthy (StatsArgs.project args) with
  | Some _ => ∃ msg, getMemoryStats env args st = (ErrorGettingStats msg, st)
  | None =>
      let rows :=
        filter (λ m, Memory.user_id m = getUserId) (memories st) in
      ∃ total types projects average recent,
        getMemoryStats env args st
        = (MemoryStatistics total types projects average recent, st)
        ∧ (length recent ≤ 7)%nat
        ∧ StronglySorted (λ a b, (b.1 < a.1)%Z) recent
        ∧ Forall
            (λ day, (1 ≤ day.2)%nat
                    ∧ day.2
                      = length (filter
                                  (λ m, DATE (Memory.created_at m) = day.1)
                                  rows))
            recent
        ∧ Forall
            (λ m, DATE (Memory.created_at m) ∈ recent.*1
                  ∨ (length recent = 7
                     ∧ Forall (λ day, (DATE (Memory.created_at m) < day.1)%Z)
                         recent))
            rows
  end.
Proof.
  pose proof (getMemoryStats_run env args st) as Hrun.
  destruct (truthy (StatsArgs.project args)) eqn:Hproject; [by eexists|].
  cbv zeta in Hrun.
  assert (filter (whereClause getUserId (StatsArgs.project args)) (memories st)
          = filter (λ m, Memory.user_id m = getUserId) (memories st))
    as Hrows.
  { apply list_filter_iff. intros m. unfold whereClause.
    rewrite Hproject. tauto. }
  rewrite Hrows in Hrun. cbv zeta.
  eexists _, _, _, _, _. split; [exact Hrun|].
  apply sql_recent_activity_days.
Qed.

End Statistics.

(** * Concrete runs of the further properties *)

Lemma related_key : NoDup (Memory.id <$> memories Walkthrough.related).
Proof. exact two_memories_key. Qed.

Lemma walkthrough_search :
  searchMemories (H := FlatJson.codec)
    (Scenario.env "q-1" 300 Walkthrough.candidates) Walkthrough.search
    Walkthrough.related
  = (FoundMemories "typescript" Walkthrough.found, Walkthrough.related).
Proof. vm_compute. reflexivity. Qed.

Lemma stored_memory_stays_witness :
  let before :=
    [add_memory (Scenario.env "m-3" 300 []) (Scenario.add "Notes")] in
  let after :=
    [switch_project (Scenario.env "s-1" 320 [])
       {| SwitchProjectArgs.project := "dev" |};
     create_memory_relationship (Scenario.env "r-2" 350 [])
       (Scenario.relate "m-1" "m-2" "extends" None)] in
  NoDup (Memory.id <$> memories Scenario.two_memories)
  ∧ Scenario.m1
      ∈ memories (calls (H := FlatJson.codec) before Scenario.two_memories)
  ∧ head (sql_select_memory "m-1"
            (calls (H := FlatJson.codec) after
               (calls (H := FlatJson.codec) before Scenario.two_memories)))
    = Some Scenario.m1.
Proof.
  cbv zeta.
  assert (Scenario.m1
            ∈ memories
                (calls (H := FlatJson.codec)
                   [add_memory (Scenario.env "m-3" 300 [])
                      (Scenario.add "Notes")]
                   Scenario.two_memories))
    as Hin by (rewrite calls_unchanged; left).
  split; [exact two_memories_key|]. split; [exact Hin|].
  exact (stored_memory_stays (H := FlatJson.codec) Scenario.two_memories
           _ _ Scenario.m1 two_memories_key Hin).
Defined.

Lemma searchMemories_results_resolved_witness :
  searchMemories (H := FlatJson.codec)
    (Scenario.env "q-1" 300 Walkthrough.candidates) Walkthrough.search
    Walkthrough.related
  = (FoundMemories "typescript" Walkthrough.found, Walkthrough.related)
  ∧ ∃ reply queryEmbedding matches,
      AI_run (Scenario.env "q-1" 300 Walkthrough.candidates) "typescript"
      = Ok reply
      ∧ data_0 reply = Ok queryEmbedding
      ∧ VECTORIZE_query (Scenario.env "q-1" 300 Walkthrough.candidates)
          queryEmbedding
          (vectorFilter getUserId (Some "default") None) (1 * 2)%Z
        = Ok matches
      ∧ Forall
          (λ e, Enhanced.memory e ∈ memories Walkthrough.related
                ∧ ∃ mt, mt ∈ matches
                        ∧ Vector.memoryId mt = Memory.id (Enhanced.memory e)
                        ∧ (Enhanced.semantic_score e == Vector.score mt)%Q)
          Walkthrough.found.
Proof.
  split; [exact walkthrough_search|].
  exact (searchMemories_results_resolved (H := FlatJson.codec) _ _ _ _ _ _
           walkthrough_search).
Defined.

Lemma searchMemories_count_witness :
  searchMemories (H := FlatJson.codec)
    (Scenario.env "q-1" 300 Walkthrough.candidates) Walkthrough.search
    Walkthrough.related
  = (FoundMemories "typescript" Walkthrough.found, Walkthrough.related)
  ∧ (0 ≤ default 10 (SearchMemoriesArgs.limit Walkthrough.search))%Z
  ∧ ∃ reply queryEmbedding matches,
      AI_run (Scenario.env "q-1" 300 Walkthrough.candidates) "typescript"
      = Ok reply
      ∧ data_0 reply = Ok queryEmbedding
      ∧ VECTORIZE_query (Scenario.env "q-1" 300 Walkthrough.candidates)
          queryEmbedding
          (vectorFilter getUserId (Some "default") None) (1 * 2)%Z
        = Ok matches
      ∧ length Walkthrough.found
        = (1 `min` length
                     (filter (λ m, Memory.id m ∈ Vector.memoryId <$> matches)
                        (memories Walkthrough.related)))%nat.
Proof.
  assert (0 ≤ default 10 (SearchMemoriesArgs.limit Walkthrough.search))%Z
    as Hlimit by (cbn; lia).
  split; [exact walkthrough_search|]. split; [exact Hlimit|].
  exact (searchMemories_count (H := FlatJson.codec) _ _ _ _ _ _
           walkthrough_search Hlimit).
Defined.


Lemma searchMemories_relationships_witness :
  searchMemories (H := FlatJson.codec)
    (Scenario.env "q-1" 300 Walkthrough.candidates) Walkthrough.search
    Walkthrough.related
  = (FoundMemories "typescript" Walkthrough.found, Walkthrough.related)
  ∧ Forall
      (λ e,
         let outgoing :=
           filter (λ r, Relationship.from_memory_id r
                        = Memory.id (Enhanced.memory e))
             (memory_relationships Walkthrough.related) in
         Enhanced.related e
         = if default false
                (SearchMemoriesArgs.include_relationships Walkthrough.search)
           then Some (GROUP_CONCAT (Relationship.to_memory_id <$> outgoing),
                      GROUP_CONCAT
                        (Relationship.relationship_type <$> outgoing))
           else None)
      Walkthrough.found.
Proof.
  split; [exact walkthrough_search|].
  exact (searchMemories_relationships (H := FlatJson.codec) _ _ _ _ _ _
           walkthrough_search).
Defined.

Lemma getMemoryStats_average_bounds_witness :
  let rows :=
    filter (whereClause getUserId (StatsArgs.project Walkthrough.all_projects))
      (memories Scenario.two_memories) in
  truthy (StatsArgs.project Walkthrough.all_projects) = None
  ∧ rows ≠ []
  ∧ Forall (λ m, (23 ≤ SQL_LENGTH (Memory.content m) ≤ 29)%nat) rows
  ∧ ∃ total types projects average recent,
      getMemoryStats (Scenario.env "g-1" 700 []) Walkthrough.all_projects
        Scenario.two_memories
      = (MemoryStatistics total types projects average recent,
         Scenario.two_memories)
      ∧ (Z.of_nat 23 ≤ average ≤ Z.of_nat 29)%Z.
Proof.
  cbv zeta.
  assert (filter
            (whereClause getUserId (StatsArgs.project Walkthrough.all_projects))
            (memories Scenario.two_memories)
          = [Scenario.m1; Scenario.m2]) as Hrows
    by (vm_compute; reflexivity).
  assert (filter
            (whereClause getUserId (StatsArgs.project Walkthrough.all_projects))
            (memories Scenario.two_memories) ≠ []) as Hsome
    by (rewrite Hrows; discriminate).
  assert (Forall (λ m, (23 ≤ SQL_LENGTH (Memory.content m) ≤ 29)%nat)
            (filter
               (whereClause getUserId
                  (StatsArgs.project Walkthrough.all_projects))
               (memories Scenario.two_memories))) as Hbounds
    by (rewrite Hrows; repeat constructor; cbn; lia).
  split; [reflexivity|]. split; [exact Hsome|]. split; [exact Hbounds|].
  exact (getMemoryStats_average_bounds (Scenario.env "g-1" 700 [])
           Walkthrough.all_projects Scenario.two_memories 23 29
           eq_refl Hsome Hbounds).
Defined.

Lemma addMemory_duplicate_id_witness :
  let env := Scenario.env "m-1" 600 [] in
  let args := Scenario.add "Notes" in
  AI_run env (AddMemoryArgs.content args) = Ok Scenario.reply
  ∧ (randomUUID env ∈ Memory.id <$> memories Scenario.two_memories)
  ∧ ∃ msg,
      addMemory (H := FlatJson.codec) env args Scenario.two_memories
      = (ErrorStoringMemory msg, Scenario.two_memories).
Proof.
  cbv zeta.
  assert ("m-1" ∈ Memory.id <$> memories Scenario.two_memories) as Htaken
    by (rewrite two_memories_ids; left).
  split; [reflexivity|]. split; [exact Htaken|].
  exact (addMemory_duplicate_id (H := FlatJson.codec)
           (Scenario.env "m-1" 600 []) (Scenario.add "Notes")
           Scenario.two_memories Scenario.reply eq_refl Htaken).
Defined.

Lemma vector_entry_matches_filter_witness :
  let env := Scenario.env "m-1" 100 [] in
  let args := add_memory_schema Scenario.add_full in
  default ∅ (AddMemoryArgs.metadata args) !! "userId" = None
  ∧ default ∅ (AddMemoryArgs.metadata args) !! "project" = None
  ∧ default ∅ (AddMemoryArgs.metadata args) !! "type" = None
  ∧ (truthy (Some "dev") = None
     ∨ truthy (Some "dev")
       = Some (default "default" (AddMemoryArgs.project args)))
  ∧ (truthy (Some "") = None
     ∨ truthy (Some "")
       = Some (default "general" (AddMemoryArgs.type args)))
  ∧ vectorFilter getUserId (Some "dev") (Some "")
    ⊆ Vector.metadata (vector_entry env args (Some [1 # 2; 1 # 4])).
Proof.
  cbv zeta.
  split; [reflexivity|]. split; [reflexivity|]. split; [reflexivity|].
  split; [right; reflexivity|]. split; [left; reflexivity|].
  exact (vector_entry_matches_filter (Scenario.env "m-1" 100 [])
           (add_memory_schema Scenario.add_full) (Some [1 # 2; 1 # 4])
           (Some "dev") (Some "")
           eq_refl eq_refl eq_refl (or_intror eq_refl) (or_introl eq_refl)).
Defined.
